(** * The amfid relay of Jailbreak/utils.h

    A shallow embedding of the second half of [Jailbreak/utils.h]: the
    replacement handlers for amfid's two MIG routines, the code that
    swaps the HOST_AMFID_PORT special port and puts it back, and the
    server loop that relays replies through amfid.

    Conventions.
    - C integers are [Z]; ports are named by a [Z] ([mach_port_t] is a
      32-bit name) and a port is identified with its name.
    - A function that performs system calls returns, next to its result,
      the list of calls it made, in order ([IO]).  [printf] is one of them
      and carries its format string.
    - Out-parameters are passed in with their current content and returned.
    - Whatever the kernel, the file system, threadexec or the hash routine
      answer is an input of the model: each function takes the answers of
      the calls it makes. *)

From Stdlib Require Import ZArith List String Bool Lia.
Import ListNotations.
Open Scope Z_scope.

(** ** Mach constants *)

Definition mach_port_t := Z.
Definition kern_return_t := Z.
Definition pid_t := Z.
Definition audit_token_t := list Z.

(** Modelled from the spec: MACH_PORT_NULL, KERN_SUCCESS and KERN_FAILURE
    of <mach/port.h> and <mach/kern_return.h>, which are not among the
    sources. *)
Definition MACH_PORT_NULL : mach_port_t := 0.

(** Modelled from the spec: KERN_SUCCESS of <mach/kern_return.h>. *)
Definition KERN_SUCCESS : kern_return_t := 0.

(** Modelled from the spec: KERN_FAILURE of <mach/kern_return.h>. *)
Definition KERN_FAILURE : kern_return_t := 5.

(** Modelled from the spec: the fixed kernel-origin sender token.  The
    macro comes from <mach/message.h>, which is not among the sources;
    the eight words of the kernel's audit token are zero. *)
Definition KERNEL_AUDIT_TOKEN_VALUE : audit_token_t := [0; 0; 0; 0; 0; 0; 0; 0].

(** Modelled from the spec: the "no reply" marker, MIG_NO_REPLY of
    <mach/mig_errors.h>, which is not among the sources. *)
Definition MIG_NO_REPLY : kern_return_t := -305.

(** Modelled from the spec: MIG_BAD_ID of <mach/mig_errors.h>, the reply
    code for a selector that names no routine. *)
Definition MIG_BAD_ID : kern_return_t := -303.

(** Modelled from the spec: the bit of <mach/message.h> that marks a
    message as complex (carrying ports or out-of-line data). *)
Definition MACH_MSGH_BITS_COMPLEX : Z := 0x80000000.

(** Modelled from the spec: the mask of the reply-port bits of
    <mach/message.h>. *)
Definition MACH_MSGH_BITS_REMOTE_MASK : Z := 0x1f.

(** Modelled from the spec: the send-once disposition of
    <mach/message.h>. *)
Definition MACH_MSG_TYPE_MOVE_SEND_ONCE : Z := 18.

(** Modelled from the spec: the macro of <mach/message.h> that tests the
    complex bit. *)
Definition MACH_MSGH_BITS_IS_COMPLEX (bits : Z) : bool :=
  negb (Z.land bits MACH_MSGH_BITS_COMPLEX =? 0).

(** Modelled from the spec: the macro of <mach/message.h> that reads the
    reply-port bits. *)
Definition MACH_MSGH_BITS_REMOTE (bits : Z) : Z :=
  Z.land bits MACH_MSGH_BITS_REMOTE_MASK.

(** Modelled from the spec: the macro of <mach/message.h> that gives the
    bits of the reply to a message. *)
Definition MACH_MSGH_BITS_REPLY (bits : Z) : Z :=
  Z.land bits MACH_MSGH_BITS_REMOTE_MASK.

(** Modelled from the spec: the macro of <mach/message.h> that packs the
    reply-port and local-port bits. *)
Definition MACH_MSGH_BITS (remote local : Z) : Z :=
  Z.lor remote (Z.shiftl local 8).

(** [memcmp(&a, &b, sizeof(a)) != 0] on two audit tokens. *)
Fixpoint memcmp_ne (a b : audit_token_t) : bool :=
  match a, b with
  | [], [] => false
  | x :: a', y :: b' => if x =? y then memcmp_ne a' b' else true
  | _, _ => true
  end.

(** ** System calls and the trace of a run *)

(** [SysAmfidServer] carries the calls the MIG server made while it ran;
    the threadexec calls and [pid_for_task] carry their outcome. *)
#[local] Unset Elimination Schemes.
Inductive Syscall : Type :=
| SysPrintf (fmt : string)
| SysOpen (path : string)
| SysFstat
| SysMmap (len offset : Z)
| SysComputeCdhash (len : Z)
| SysMunmap (len : Z)
| SysClose
| SysHostGetAmfidPort (host : mach_port_t)
| SysHostSetAmfidPort (host port : mach_port_t)
| SysPortConstruct
| SysPortDestroy (name : mach_port_t)
| SysProcListPids (path : string)
| SysThreadexecInit (task : mach_port_t)
| SysMachMsgReceive (port : mach_port_t)
| SysAmfidServer (calls : list Syscall)
| SysMachMsgDestroy (reply_port : mach_port_t)
| SysAssertFailed (expr : string)
| SysThreadexecPortInsert (name : mach_port_t) (ok : bool)
| SysPortDeallocate (name : mach_port_t)
| SysThreadexecCallMachMsgSend (reply_port : mach_port_t) (ok : bool)
| SysThreadexecPortDeallocate (name : mach_port_t)
| SysPidForTask (task : mach_port_t) (kr : kern_return_t).
#[local] Set Elimination Schemes.

Definition is_file_access (c : Syscall) : bool :=
  match c with
  | SysOpen _ | SysFstat | SysMmap _ _ | SysComputeCdhash _
  | SysMunmap _ | SysClose => true
  | _ => false
  end.

Definition IO (A : Type) : Type := (A * list Syscall)%type.

Definition ret {A : Type} (a : A) : IO A := (a, []).

Definition bind {A B : Type} (m : IO A) (k : A -> IO B) : IO B :=
  let (a, t) := m in
  let (b, t') := k a in
  (b, t ++ t').

Definition call {A : Type} (c : Syscall) (answer : A) : IO A := (answer, [c]).

Definition printf (fmt : string) : IO unit := call (SysPrintf fmt) tt.

Definition result {A : Type} (m : IO A) : A := fst m.
Definition trace {A : Type} (m : IO A) : list Syscall := snd m.

Notation "x <- c ;; k" := (bind c (fun x => k))
  (at level 61, c at next level, right associativity).
Notation "c ;;; k" := (bind c (fun _ => k))
  (at level 61, right associativity).

(** ** The file system and the hash routine, as the handlers see them *)

(** What [open] gives for a path: the bytes of the file, whether [fstat]
    succeeds on it, and whether [mmap] of [len] bytes at [offset] does. *)
Record vnode : Type := {
  v_data : list Z;
  v_fstat : bool;
  v_mmap : Z -> Z -> bool
}.

(** Modelled from the spec: [compute_cdhash] of cdhash.h, which is not among
    the sources, is the Hash Oracle [hash(bytes, length) -> digest | fails];
    it writes the digest only when it succeeds. *)
Record Env : Type := {
  fs : string -> option vnode;
  compute_cdhash : list Z -> option (list Z)
}.

(** ** compute_cdhash_of_file *)

Definition compute_cdhash_of_file (env : Env) (path : string)
    (file_offset : Z) (cdhash : list Z) : IO (bool * list Z) :=
  let success := false in
  (* Open the file. *)
  fd <- call (SysOpen path) (fs env path) ;;
  match fd with
  | None =>
      printf "Could not open %s" ;;;
      ret (success, cdhash)                                   (* fail_0 *)
  | Some fd =>
      r <- (
        (* Get the size of the file. *)
        err <- call SysFstat (negb (v_fstat fd)) ;;
        if err then
          printf "Could not get size of file %s" ;;;
          ret (success, cdhash)                               (* fail_1 *)
        else
          let size := Z.of_nat (List.length (v_data fd)) in
          if size <=? file_offset then
            printf "Invalid file offset" ;;;
            ret (success, cdhash)                             (* fail_1 *)
          else
            let size := size - file_offset in
            (* Map the file into memory. *)
            mapped <- call (SysMmap size file_offset)
                           (v_mmap fd size file_offset) ;;
            if negb mapped then
              ret (success, cdhash)                           (* fail_1 *)
            else
              let file := skipn (Z.to_nat file_offset) (v_data fd) in
              (* Compute the cdhash. *)
              digest <- call (SysComputeCdhash size)
                             (compute_cdhash env file) ;;
              r <- match digest with
                   | Some d => ret (true, d)
                   | None =>
                       printf "Could not compute cdhash of %s" ;;;
                       ret (false, cdhash)
                   end ;;
              call (SysMunmap file_offset) tt ;;;             (* fail_2 *)
              ret r) ;;
      call SysClose tt ;;;                                    (* fail_1 *)
      ret r
  end.

(** ** verify_code_directory_mig *)

(** The out-parameters of [verify_code_directory_mig]. *)
Record verify_out : Type := {
  entitlements_valid : Z;
  signature_valid : Z;
  unrestrict : Z;
  signer_type : Z;
  is_apple : Z;
  is_developer_code : Z;
  a13 : list Z;
  cdhash : list Z
}.

Definition set_cdhash (o : verify_out) (d : list Z) : verify_out :=
  {| entitlements_valid := entitlements_valid o;
     signature_valid := signature_valid o;
     unrestrict := unrestrict o;
     signer_type := signer_type o;
     is_apple := is_apple o;
     is_developer_code := is_developer_code o;
     a13 := a13 o;
     cdhash := d |}.

Definition verify_code_directory_mig (env : Env) (amfid_port : mach_port_t)
    (path : string) (file_offset : Z) (a4 a5 a6 : Z)
    (out : verify_out) (audit : audit_token_t)
    : IO (kern_return_t * verify_out) :=
  printf "%s(%s, %llu, %u, %u, %u)" ;;;
  (* Check that the message came from the kernel. *)
  let kernel_token := KERNEL_AUDIT_TOKEN_VALUE in
  if memcmp_ne audit kernel_token then
    printf "%s: Invalid sender %d" ;;;
    ret (KERN_FAILURE, out)
  else
    (* Compute the cdhash. *)
    r <- compute_cdhash_of_file env path file_offset (cdhash out) ;;
    let (ok, digest) := r in
    let out := set_cdhash out digest in
    if negb ok then
      ret (KERN_FAILURE, out)
    else
      (* Grant all the permissions. *)
      ret (KERN_SUCCESS,
           {| entitlements_valid := 1;
              signature_valid := 1;
              unrestrict := 1;
              signer_type := 0;
              is_apple := 1;
              is_developer_code := 0;
              a13 := a13 out;
              cdhash := cdhash out |}).

(** ** permit_unrestricted_debugging_v2 *)

Definition permit_unrestricted_debugging_v2 (amfid_port : mach_port_t)
    (unrestricted_debugging : Z) (audit : audit_token_t)
    : IO (kern_return_t * Z) :=
  printf "%s()" ;;;
  ret (KERN_FAILURE, unrestricted_debugging).

(** ** Process state: the kernel side and the globals of the file *)

(** Modelled from the spec: the Execution Context of threadexec/threadexec.h,
    which is not among the sources: a handle bound to the task port it was
    created from ([bind(processHandle) -> Context | fails]). *)
Record threadexec : Type := { tx_task : mach_port_t }.

(** [threadexec_t] is a pointer: [None] is NULL. *)
Definition threadexec_t := option threadexec.

Definition threadexec_task (tx : threadexec_t) : mach_port_t :=
  match tx with
  | Some t => tx_task t
  | None => MACH_PORT_NULL
  end.

(** Modelled from the spec: the Process Directory of process.h, which is not
    among the sources: [find_by_path(path) -> list of PID] and
    [task_for_pid(pid) -> processHandle | fails]. *)
Record process : Type := {
  p_pid : pid_t;
  p_path : string;
  p_task : mach_port_t
}.

Definition find_by_path (procs : list process) (path : string) : list pid_t :=
  map p_pid (filter (fun p => String.eqb (p_path p) path) procs).

Definition task_for_pid (procs : list process) (pid : pid_t)
    : option mach_port_t :=
  option_map p_task (find (fun p => p_pid p =? pid) procs).

Record State : Type := {
  (* the kernel: the HOST_AMFID_PORT special port, the host port of this
     task, the names in this task's IPC space, the running processes *)
  host_amfid_port_slot : mach_port_t;
  mach_host_self : mach_port_t;
  ipc_space : list mach_port_t;
  procs : list process;
  (* the globals *)
  amfid_tx : threadexec_t;
  host_port_main : mach_port_t;
  amfid_port : mach_port_t;
  fake_amfid_port : mach_port_t
}.

Definition set_slot (s : State) (p : mach_port_t) : State :=
  {| host_amfid_port_slot := p; mach_host_self := mach_host_self s;
     ipc_space := ipc_space s; procs := procs s; amfid_tx := amfid_tx s;
     host_port_main := host_port_main s; amfid_port := amfid_port s;
     fake_amfid_port := fake_amfid_port s |}.

Definition set_ipc_space (s : State) (l : list mach_port_t) : State :=
  {| host_amfid_port_slot := host_amfid_port_slot s;
     mach_host_self := mach_host_self s;
     ipc_space := l; procs := procs s; amfid_tx := amfid_tx s;
     host_port_main := host_port_main s; amfid_port := amfid_port s;
     fake_amfid_port := fake_amfid_port s |}.

Definition set_amfid_tx (s : State) (tx : threadexec_t) : State :=
  {| host_amfid_port_slot := host_amfid_port_slot s;
     mach_host_self := mach_host_self s;
     ipc_space := ipc_space s; procs := procs s; amfid_tx := tx;
     host_port_main := host_port_main s; amfid_port := amfid_port s;
     fake_amfid_port := fake_amfid_port s |}.

Definition set_host_port_main (s : State) (p : mach_port_t) : State :=
  {| host_amfid_port_slot := host_amfid_port_slot s;
     mach_host_self := mach_host_self s;
     ipc_space := ipc_space s; procs := procs s; amfid_tx := amfid_tx s;
     host_port_main := p; amfid_port := amfid_port s;
     fake_amfid_port := fake_amfid_port s |}.

Definition set_amfid_port (s : State) (p : mach_port_t) : State :=
  {| host_amfid_port_slot := host_amfid_port_slot s;
     mach_host_self := mach_host_self s;
     ipc_space := ipc_space s; procs := procs s; amfid_tx := amfid_tx s;
     host_port_main := host_port_main s; amfid_port := p;
     fake_amfid_port := fake_amfid_port s |}.

Definition set_fake_amfid_port (s : State) (p : mach_port_t) : State :=
  {| host_amfid_port_slot := host_amfid_port_slot s;
     mach_host_self := mach_host_self s;
     ipc_space := ipc_space s; procs := procs s; amfid_tx := amfid_tx s;
     host_port_main := host_port_main s; amfid_port := amfid_port s;
     fake_amfid_port := p |}.

(** ** Kernel calls

    Each takes the return code the kernel gives as [kr].  A call that fails
    changes nothing. *)

(** Modelled from the spec: the Kernel special-port registry,
    [get(registryHandle) -> Endpoint | fails]; the macro is from
    <mach/host_special_ports.h>, not among the sources.  On success the
    caller receives (a send right to) the registered port. *)
Definition host_get_amfid_port (kr : kern_return_t) (s : State)
    (host : mach_port_t) (port : mach_port_t)
    : IO (kern_return_t * mach_port_t * State) :=
  call (SysHostGetAmfidPort host)
    (if kr =? KERN_SUCCESS
     then (kr, host_amfid_port_slot s,
           set_ipc_space s (host_amfid_port_slot s :: ipc_space s))
     else (kr, port, s)).

(** Modelled from the spec: the Kernel special-port registry,
    [set(registryHandle, Endpoint) -> fails]. *)
Definition host_set_amfid_port (kr : kern_return_t) (s : State)
    (host : mach_port_t) (port : mach_port_t) : IO (kern_return_t * State) :=
  call (SysHostSetAmfidPort host port)
    (if kr =? KERN_SUCCESS then (kr, set_slot s port) else (kr, s)).

(** Modelled from the spec: [mach_port_construct] of <mach/mach_port.h>
    with MPO_INSERT_SEND_RIGHT creates the replacement endpoint: a new port
    under the name the kernel picked. *)
Definition mach_port_construct (answer : kern_return_t * mach_port_t)
    (s : State) (name : mach_port_t) : IO (kern_return_t * mach_port_t * State) :=
  let (kr, new) := answer in
  call SysPortConstruct
    (if kr =? KERN_SUCCESS
     then (kr, new, set_ipc_space s (new :: ipc_space s))
     else (kr, name, s)).

(** Modelled from the spec: [mach_port_destroy] of <mach/mach_port.h>
    releases the endpoint: the name and all its rights leave the IPC space;
    MACH_PORT_NULL names nothing. *)
Definition mach_port_destroy (s : State) (name : mach_port_t) : IO State :=
  call (SysPortDestroy name)
    (if name =? MACH_PORT_NULL then s
     else set_ipc_space s (filter (fun n => negb (n =? name)) (ipc_space s))).

(** Modelled from the spec: [proc_list_pids_with_path] of process.h, not
    among the sources: stores at most [capacity] of the PIDs running [path]
    and gives back how many there are. *)
Definition proc_list_pids_with_path (ok : bool) (s : State) (path : string)
    (pid : pid_t) (capacity : Z) : IO (bool * pid_t * Z) :=
  let found := find_by_path (procs s) path in
  call (SysProcListPids path)
    (if ok
     then (true,
           match found with
           | p :: _ => if 1 <=? capacity then p else pid
           | [] => pid
           end,
           Z.of_nat (List.length found))
     else (false, pid, capacity)).

(** Modelled from the spec: [threadexec_init] of threadexec/threadexec.h,
    [bind(processHandle) -> Context | fails]. *)
Definition threadexec_init (ok : bool) (task : mach_port_t) : IO threadexec_t :=
  call (SysThreadexecInit task)
    (if ok then Some {| tx_task := task |} else None).

(** ** create_amfid_threadexec *)

Definition AMFID_PATH : string := "/usr/libexec/amfid".

Record create_answers : Type := {
  c_proc_list : bool;
  c_host_get : kern_return_t;
  c_threadexec_init : bool
}.

Definition create_amfid_threadexec (k : create_answers) (s : State)
    : IO (bool * State) :=
  (* Get amfid's PID. *)
  let amfid_pid := 0 in
  let count := 1 in
  r <- proc_list_pids_with_path (c_proc_list k) s AMFID_PATH amfid_pid count ;;
  let '(ok, amfid_pid, count) := r in
  if negb ok || (count =? 0) then
    printf "Could not find amfid process" ;;;
    ret (false, s)
  else if 1 <? count then
    printf "Multiple processes with path %s" ;;;
    ret (false, s)
  else
    printf "Amfid PID: %d" ;;;
    (* Get amfid's task port. *)
    let amfid_task := MACH_PORT_NULL in
    r <- host_get_amfid_port (c_host_get k) s (mach_host_self s) amfid_task ;;
    let '(kr, amfid_task, s) := r in
    if negb (kr =? KERN_SUCCESS) then
      printf "Could not get amfid task" ;;;
      ret (false, s)
    else
      (* Create the threadexec. *)
      tx <- threadexec_init (c_threadexec_init k) amfid_task ;;
      let s := set_amfid_tx s tx in
      match tx with
      | None =>
          printf "Could not create execution context in amfid" ;;;
          ret (false, s)
      | Some _ => ret (true, s)
      end.

(** ** replace_amfid_port *)

Record replace_answers : Type := {
  r_host_get : kern_return_t;
  r_construct : kern_return_t * mach_port_t;
  r_host_set : kern_return_t
}.

Definition replace_amfid_port (k : replace_answers) (s : State)
    : IO (bool * State) :=
  (* Get a send right to the original amfid service port. *)
  let s := set_host_port_main s (mach_host_self s) in
  r <- host_get_amfid_port (r_host_get k) s (host_port_main s) (amfid_port s) ;;
  let '(kr, port, s) := r in
  let s := set_amfid_port s port in
  if negb (kr =? KERN_SUCCESS) then
    printf "Could not get amfid's service port" ;;;
    ret (false, s)
  else
    (* Create a Mach port that will replace the amfid port. *)
    r <- mach_port_construct (r_construct k) s (fake_amfid_port s) ;;
    let '(kr, port, s) := r in
    let s := set_fake_amfid_port s port in
    if negb (kr =? KERN_SUCCESS) then
      printf "Could not create fake amfid port" ;;;
      ret (false, s)
    else
      (* Set our new Mach port as the host special port. *)
      r <- host_set_amfid_port (r_host_set k) s (host_port_main s)
                               (fake_amfid_port s) ;;
      let (kr, s) := r in
      if negb (kr =? KERN_SUCCESS) then
        printf "Could not register fake amfid port: error %d" ;;;
        ret (false, s)
      else
        printf "Registered new amfid port: 0x%x" ;;;
        ret (true, s).

(** ** restore_amfid_port *)

Definition restore_amfid_port (host_set_kr : kern_return_t) (s : State)
    : IO State :=
  (* Restore the original amfid port. *)
  r <- host_set_amfid_port host_set_kr s (host_port_main s) (amfid_port s) ;;
  let (kr, s) := r in
  (if negb (kr =? KERN_SUCCESS) then
     printf "Could not restore fake amfid port"
   else ret tt) ;;;
  (* Close our fake amfid port. *)
  s <- mach_port_destroy s (fake_amfid_port s) ;;
  ret (set_fake_amfid_port s MACH_PORT_NULL).

(** ** Messages *)

Record mach_msg_header_t : Type := {
  msgh_bits : Z;
  msgh_remote_port : mach_port_t;
  msgh_local_port : mach_port_t
}.

Definition set_msgh_remote_port (h : mach_msg_header_t) (p : mach_port_t)
    : mach_msg_header_t :=
  {| msgh_bits := msgh_bits h; msgh_remote_port := p;
     msgh_local_port := msgh_local_port h |}.

(** The procedure selector of a request. *)
Inductive routine : Type :=
| verify_code_directory
| permit_unrestricted_debugging
| unknown_routine.

(** A received request: header, selector, the arguments of
    [verify_code_directory], and the audit token of the trailer. *)
Record request_t : Type := {
  rq_head : mach_msg_header_t;
  rq_routine : routine;
  rq_path : string;
  rq_file_offset : Z;
  rq_a4 : Z;
  rq_a5 : Z;
  rq_a6 : Z;
  rq_audit : audit_token_t
}.

(** The reply buffer shared with amfid: [mig_reply_error_t] followed by the
    out-parameters of the two routines. *)
Record reply_t : Type := {
  Head : mach_msg_header_t;
  RetCode : kern_return_t;
  verify : verify_out;
  unrestricted_debugging : Z
}.

Definition set_Head (r : reply_t) (h : mach_msg_header_t) : reply_t :=
  {| Head := h; RetCode := RetCode r; verify := verify r;
     unrestricted_debugging := unrestricted_debugging r |}.

Definition set_reply_remote_port (r : reply_t) (p : mach_port_t) : reply_t :=
  set_Head r (set_msgh_remote_port (Head r) p).

(** Modelled from the spec: [amfid_server] of amfidServer.h (generated by
    MIG), which is not among the sources.  It routes the request by its
    procedure selector to the handler and fills the reply: the header's bits
    are the reply-port bits of the request, the reply goes to the request's
    reply port, and [RetCode] is what the handler returned, or MIG_BAD_ID
    when no routine matches. *)
Definition amfid_server (env : Env) (request : request_t) (reply : reply_t)
    : IO reply_t :=
  let InHeadP := rq_head request in
  let OutHeadP :=
    {| msgh_bits := MACH_MSGH_BITS (MACH_MSGH_BITS_REPLY (msgh_bits InHeadP)) 0;
       msgh_remote_port := msgh_remote_port InHeadP;
       msgh_local_port := MACH_PORT_NULL |} in
  match rq_routine request with
  | verify_code_directory =>
      r <- verify_code_directory_mig env (msgh_local_port InHeadP)
             (rq_path request) (rq_file_offset request)
             (rq_a4 request) (rq_a5 request) (rq_a6 request)
             (verify reply) (rq_audit request) ;;
      let (kr, out) := r in
      ret {| Head := OutHeadP; RetCode := kr; verify := out;
             unrestricted_debugging := unrestricted_debugging reply |}
  | permit_unrestricted_debugging =>
      r <- permit_unrestricted_debugging_v2 (msgh_local_port InHeadP)
             (unrestricted_debugging reply) (rq_audit request) ;;
      let (kr, out) := r in
      ret {| Head := OutHeadP; RetCode := kr; verify := verify reply;
             unrestricted_debugging := out |}
  | unknown_routine =>
      ret {| Head := OutHeadP; RetCode := MIG_BAD_ID; verify := verify reply;
             unrestricted_debugging := unrestricted_debugging reply |}
  end.

(** ** run_amfid_server *)

(** What the outside answers during one turn of the loop: the receive, the
    insertion of the reply port into amfid, the remote [mach_msg], and
    [pid_for_task]. *)
Record relay_answers : Type := {
  rcv_kr : kern_return_t;
  rcv_request : request_t;
  port_insert : option mach_port_t;
  call_cv : bool;
  pid_for_task : kern_return_t
}.

Definition is_some {A : Type} (o : option A) : bool :=
  match o with
  | Some _ => true
  | None => false
  end.

(** How one turn of the loop ends. *)
Inductive ctl : Type := Continue | Break | Abort.

(** How the loop is found after the requests of a script: returned,
    aborted by an assertion, or blocked in [mach_msg] for the next one. *)
Inductive exit : Type := Returned | Aborted | Receiving.

Section Relay.

(** The MIG server the loop dispatches to. *)
Variable server : request_t -> reply_t -> IO reply_t.

Variable tx : threadexec_t.
Variable fake_port : mach_port_t.

Definition check_amfid (a : relay_answers) : IO ctl :=
  kr <- call (SysPidForTask (threadexec_task tx) (pid_for_task a))
            (pid_for_task a) ;;
  if negb (kr =? KERN_SUCCESS) then
    printf "Amfid died" ;;;
    ret Break
  else ret Continue.

(** The body of the [for (;;)]. *)
Definition serve_one (a : relay_answers) (reply : reply_t)
    : IO (ctl * reply_t) :=
  (* Receive a message from the kernel. *)
  kr <- call (SysMachMsgReceive fake_port) (rcv_kr a) ;;
  if negb (kr =? KERN_SUCCESS) then
    printf "Failed to receive message on fake amfid port: %d" ;;;
    ret (Break, reply)
  else
    let request := rcv_request a in
    (* Process the message with our amfid server to fill in the reply. *)
    reply <- (let (r, calls) := server request reply in
              call (SysAmfidServer calls) r) ;;
    (* Mig semantics. *)
    reply <- (if negb (MACH_MSGH_BITS_IS_COMPLEX (msgh_bits (Head reply)))
              then
                if RetCode reply =? MIG_NO_REPLY then
                  ret (set_reply_remote_port reply MACH_PORT_NULL)
                else if negb (RetCode reply =? KERN_SUCCESS) then
                  call (SysMachMsgDestroy MACH_PORT_NULL) reply
                else ret reply
              else ret reply) ;;
    (* Now translate that reply so it can be sent by amfid. *)
    if MACH_MSGH_BITS_IS_COMPLEX (msgh_bits (Head reply)) then
      call (SysAssertFailed
              "!MACH_MSGH_BITS_IS_COMPLEX(reply->Head.msgh_bits)")
           (Abort, reply)
    else if negb (MACH_MSGH_BITS_REMOTE (msgh_bits (Head reply))
                  =? MACH_MSG_TYPE_MOVE_SEND_ONCE) then
      call (SysAssertFailed
              "MACH_MSGH_BITS_REMOTE(reply->Head.msgh_bits) == MACH_MSG_TYPE_MOVE_SEND_ONCE")
           (Abort, reply)
    else
      r <- call (SysThreadexecPortInsert (msgh_remote_port (Head reply))
                   (is_some (port_insert a)))
                (port_insert a) ;;
      match r with
      | None =>
          printf "Could not move the send-once right into amfid" ;;;
          call (SysPortDeallocate (msgh_remote_port (Head reply))) tt ;;;
          c <- check_amfid a ;;
          ret (c, reply)
      | Some remote =>
          let reply := set_reply_remote_port reply remote in
          ok <- call (SysThreadexecCallMachMsgSend
                        (msgh_remote_port (Head reply)) (call_cv a))
                     (call_cv a) ;;
          if negb ok then
            printf "Could not send our reply from amfid: error %d" ;;;
            call (SysThreadexecPortDeallocate
                    (msgh_remote_port (Head reply))) tt ;;;
            c <- check_amfid a ;;
            ret (c, reply)
          else
            ret (Continue, reply)
      end.

(** The loop, over the answers of the turns that have happened so far.
    [mach_msg] waits without timeout: when the script is used up the loop
    is blocked in the receive. *)
Fixpoint serve (script : list relay_answers) (reply : reply_t)
    : IO (exit * reply_t) :=
  match script with
  | [] => ret (Receiving, reply)
  | a :: script' =>
      r <- serve_one a reply ;;
      match r with
      | (Continue, reply) => serve script' reply
      | (Break, reply) => ret (Returned, reply)
      | (Abort, reply) => ret (Aborted, reply)
      end
  end.

End Relay.

(** [run_amfid_server] with the globals of the state; [reply] is the buffer
    [threadexec_shared_vm_default] hands out. *)
Definition run_amfid_server (server : request_t -> reply_t -> IO reply_t)
    (s : State) (reply : reply_t) (script : list relay_answers)
    : IO (exit * reply_t) :=
  serve server (amfid_tx s) (fake_amfid_port s) script reply.

(** ** Why a verification fails *)

Definition file_size (fd : vnode) : Z := Z.of_nat (List.length (v_data fd)).






(** ** A small world to run the model in *)

Definition example_hash (bytes : list Z) : option (list Z) :=
  match bytes with
  | [] => None
  | _ => Some (repeat (fold_left Z.add bytes 0 mod 256) 20)
  end.

Definition example_fs (path : string) : option vnode :=
  if String.eqb path "/bin/ls" then
    Some {| v_data := [0xcf; 0xfa; 0xed; 0xfe; 0x0c; 0x00; 0x00; 0x01];
            v_fstat := true;
            v_mmap := fun _ offset => offset mod 4096 =? 0 |}
  else if String.eqb path "/private/var/stale" then
    Some {| v_data := [0xcf; 0xfa; 0xed; 0xfe];
            v_fstat := false;
            v_mmap := fun _ _ => true |}
  else None.

Definition example_env : Env :=
  {| fs := example_fs; compute_cdhash := example_hash |}.

Definition example_out : verify_out :=
  {| entitlements_valid := 0; signature_valid := 0; unrestrict := 0;
     signer_type := 7; is_apple := 0; is_developer_code := 1;
     a13 := [0; 0; 0; 0]; cdhash := repeat 0xaa 20 |}.

Definition forged_token : audit_token_t := [0; 0; 0; 501; 501; 731; 0; 0].

(** A device where amfid runs as process 131: its service port is
    registered as the HOST_AMFID_PORT special port, its task port is
    another port. *)
Definition example_state : State :=
  {| host_amfid_port_slot := 0x1403;
     mach_host_self := 0x0c03;
     ipc_space := [0x0c03; 0x0103];
     procs := [ {| p_pid := 1; p_path := "/sbin/launchd"; p_task := 0x2103 |};
                {| p_pid := 131; p_path := AMFID_PATH; p_task := 0x2503 |} ];
     amfid_tx := None;
     host_port_main := MACH_PORT_NULL;
     amfid_port := MACH_PORT_NULL;
     fake_amfid_port := MACH_PORT_NULL |}.

Definition all_created : create_answers :=
  {| c_proc_list := true; c_host_get := KERN_SUCCESS;
     c_threadexec_init := true |}.

Definition all_replaced : replace_answers :=
  {| r_host_get := KERN_SUCCESS; r_construct := (KERN_SUCCESS, 0x3b03);
     r_host_set := KERN_SUCCESS |}.

(** Modelled from the spec: KERN_NO_ACCESS of <mach/kern_return.h>, one of
    the codes the special-port registry fails with. *)
Definition KERN_NO_ACCESS : kern_return_t := 8.

(** ** Reading a trace of the loop *)

Definition is_receive (c : Syscall) : bool :=
  match c with
  | SysMachMsgReceive _ => true
  | _ => false
  end.

(** The relay of a reply is over: amfid sent it, or the reply port was
    given up (locally after a failed insertion, in amfid after a failed
    send). *)
Definition relay_done (c : Syscall) : bool :=
  match c with
  | SysThreadexecCallMachMsgSend _ true => true
  | SysPortDeallocate _ => true
  | SysThreadexecPortDeallocate _ => true
  | _ => false
  end.

(** Calls that run in amfid through the threadexec. *)
Definition is_remote_call (c : Syscall) : bool :=
  match c with
  | SysThreadexecPortInsert _ _ => true
  | SysThreadexecCallMachMsgSend _ _ => true
  | SysThreadexecPortDeallocate _ => true
  | _ => false
  end.

Definition is_liveness_check (c : Syscall) : bool :=
  match c with
  | SysPidForTask _ _ => true
  | _ => false
  end.

(** A request as the kernel sends it: the reply port comes as a send-once
    right. *)
Definition example_request (r : routine) (path : string) (offset : Z)
    (reply_port : mach_port_t) : request_t :=
  {| rq_head := {| msgh_bits := 0x1112; msgh_remote_port := reply_port;
                   msgh_local_port := 0x3b03 |};
     rq_routine := r; rq_path := path; rq_file_offset := offset;
     rq_a4 := 0; rq_a5 := 0; rq_a6 := 0;
     rq_audit := KERNEL_AUDIT_TOKEN_VALUE |}.

Definition example_reply : reply_t :=
  {| Head := {| msgh_bits := 0; msgh_remote_port := MACH_PORT_NULL;
                msgh_local_port := MACH_PORT_NULL |};
     RetCode := 0; verify := example_out; unrestricted_debugging := 0 |}.

(** A turn where everything works, and turns where the insertion of the
    reply port, or the send from amfid, fails, with amfid alive or dead. *)
Definition turn_ok (rq : request_t) : relay_answers :=
  {| rcv_kr := KERN_SUCCESS; rcv_request := rq; port_insert := Some 0x7a03;
     call_cv := true; pid_for_task := KERN_SUCCESS |}.

Definition turn_insert_fails (rq : request_t) (alive : kern_return_t)
    : relay_answers :=
  {| rcv_kr := KERN_SUCCESS; rcv_request := rq; port_insert := None;
     call_cv := true; pid_for_task := alive |}.

Definition turn_send_fails (rq : request_t) (alive : kern_return_t)
    : relay_answers :=
  {| rcv_kr := KERN_SUCCESS; rcv_request := rq; port_insert := Some 0x7b03;
     call_cv := false; pid_for_task := alive |}.

Definition example_tx : threadexec_t := Some {| tx_task := 0x2503 |}.

(** A server that answers with a complex message, which amfid's never
    does. *)
Definition complex_server (request : request_t) (reply : reply_t)
    : IO reply_t :=
  ret (set_Head reply
         {| msgh_bits := Z.lor MACH_MSGH_BITS_COMPLEX 18;
            msgh_remote_port := msgh_remote_port (rq_head request);
            msgh_local_port := MACH_PORT_NULL |}).

Definition example_script : list relay_answers :=
  [turn_ok (example_request verify_code_directory "/bin/ls" 0 0x4103);
   turn_insert_fails
     (example_request permit_unrestricted_debugging "" 0 0x4203)
     KERN_SUCCESS;
   turn_send_fails
     (example_request verify_code_directory "/bin/ls" 4096 0x4303)
     KERN_FAILURE;
   turn_ok (example_request verify_code_directory "/bin/ls" 0 0x4403)].

Definition example_run : IO (exit * reply_t) :=
  serve (amfid_server example_env) example_tx 0x3b03 example_script
    example_reply.

(** ** The entry point: signals, set-up, loop, tear-down *)

(** The signals of <signal.h>, by name. *)
Inductive signal : Type :=
| SIGHUP | SIGINT | SIGQUIT | SIGILL | SIGTRAP | SIGABRT | SIGEMT | SIGFPE
| SIGKILL | SIGBUS | SIGSEGV | SIGSYS | SIGPIPE | SIGALRM | SIGTERM | SIGURG
| SIGSTOP | SIGTSTP | SIGCONT | SIGCHLD | SIGTTIN | SIGTTOU | SIGIO
| SIGXCPU | SIGXFSZ | SIGVTALRM | SIGPROF | SIGWINCH | SIGINFO | SIGUSR1
| SIGUSR2.

Definition signal_eqb (a b : signal) : bool :=
  match a, b with
  | SIGHUP, SIGHUP | SIGINT, SIGINT | SIGQUIT, SIGQUIT | SIGILL, SIGILL
  | SIGTRAP, SIGTRAP | SIGABRT, SIGABRT | SIGEMT, SIGEMT | SIGFPE, SIGFPE
  | SIGKILL, SIGKILL | SIGBUS, SIGBUS | SIGSEGV, SIGSEGV | SIGSYS, SIGSYS
  | SIGPIPE, SIGPIPE | SIGALRM, SIGALRM | SIGTERM, SIGTERM | SIGURG, SIGURG
  | SIGSTOP, SIGSTOP | SIGTSTP, SIGTSTP | SIGCONT, SIGCONT
  | SIGCHLD, SIGCHLD | SIGTTIN, SIGTTIN | SIGTTOU, SIGTTOU | SIGIO, SIGIO
  | SIGXCPU, SIGXCPU | SIGXFSZ, SIGXFSZ | SIGVTALRM, SIGVTALRM
  | SIGPROF, SIGPROF | SIGWINCH, SIGWINCH | SIGINFO, SIGINFO
  | SIGUSR1, SIGUSR1 | SIGUSR2, SIGUSR2 => true
  | _, _ => false
  end.

(** The calls of the entry point: those of the functions above, [sigaction]
    and [threadexec_deinit]. *)
Inductive Event : Type :=
| EvCall (c : Syscall)
| EvSigaction (signum : signal)
| EvThreadexecDeinit (task : mach_port_t).

Definition Main (A : Type) : Type := (A * list Event)%type.

Definition ret_main {A : Type} (a : A) : Main A := (a, []).

Definition bind_main {A B : Type} (m : Main A) (k : A -> Main B) : Main B :=
  let (a, t) := m in
  let (b, t') := k a in
  (b, t ++ t').

(** Runs a function of the sections above inside the entry point. *)
Definition lift {A : Type} (m : IO A) : Main A :=
  (fst m, map EvCall (snd m)).

Notation "x <~ c ;; k" := (bind_main c (fun x => k))
  (at level 61, c at next level, right associativity).
Notation "c ;;~ k" := (bind_main c (fun _ => k))
  (at level 61, right associativity).

(** [sigaction(signum, &act, NULL)]: [err] is what it returns. *)
Definition sigaction (err : Z) (signum : signal) : Main Z :=
  (err, [EvSigaction signum]).

(** Modelled from the spec: [threadexec_deinit] of threadexec/threadexec.h,
    [unbind(Context)], which is not among the sources.  The global
    [amfid_tx] keeps its value. *)
Definition threadexec_deinit (tx : threadexec_t) : Main unit :=
  (tt, [EvThreadexecDeinit (threadexec_task tx)]).

(** The array [signals] of [install_signal_handler]. *)
Definition signals : list signal :=
  [SIGHUP; SIGINT; SIGQUIT; SIGILL; SIGTRAP; SIGABRT; SIGEMT; SIGFPE; SIGBUS;
   SIGSEGV; SIGSYS; SIGPIPE; SIGALRM; SIGTERM; SIGXCPU; SIGXFSZ; SIGVTALRM;
   SIGPROF; SIGUSR1; SIGUSR2].

(** [signal_handler]: whatever the signal, put the amfid port back. *)
Definition signal_handler (host_set_kr : kern_return_t) (signum : signal)
    (s : State) : IO State :=
  restore_amfid_port host_set_kr s.

(** The [for] of [install_signal_handler], from index [i] on: [todo] is
    what is left of the array, [handled] the signals that already run
    [signal_handler]. *)
Fixpoint install_from (answers : signal -> Z) (todo handled : list signal)
    : Main (list signal) :=
  match todo with
  | [] => ret_main handled
  | signum :: todo' =>
      err <~ sigaction (answers signum) signum ;;
      (if negb (err =? 0) then
         lift (printf "Failed to register for signal %d")
       else ret_main tt) ;;~
      install_from answers todo'
        (if err =? 0 then handled ++ [signum] else handled)
  end.

(** [install_signal_handler]: [answers] is what [sigaction] returns for each
    signal; the result lists the signals that now run [signal_handler]. *)
Definition install_signal_handler (answers : signal -> Z)
    : Main (list signal) :=
  install_from answers signals [].

(** What the outside answers during a run of the entry point. *)
Record main_answers : Type := {
  m_sigaction : signal -> Z;
  m_create : create_answers;
  m_replace : replace_answers;
  m_reply : reply_t;
  m_script : list relay_answers;
  m_restore : kern_return_t
}.

(** How a run of the entry point is found: it returned [ret], it was
    aborted by an assertion of the loop, or it is blocked in the receive of
    the loop. *)
Inductive outcome : Type :=
| Exited (ret : Z)
| Crashed
| Serving.

(** The entry point.  No signal arrives during the run; [getpid] and
    [getuid] only feed the [printf]. *)
Definition fuckup_amfid (server : request_t -> reply_t -> IO reply_t)
    (k : main_answers) (s : State) : Main (outcome * State) :=
  let ret := 1 in
  lift (printf "\nStarting Amfid fuckery...\n") ;;~
  lift (printf "amfidupe: pid=%d, uid=%d\n") ;;~
  install_signal_handler (m_sigaction k) ;;~
  r <~ lift (create_amfid_threadexec (m_create k) s) ;;
  let (ok, s) := r in
  if negb ok then
    lift (printf "amfidupe: exit") ;;~                         (* fail_0 *)
    ret_main (Exited ret, s)
  else
    r <~ lift (replace_amfid_port (m_replace k) s) ;;
    let (ok, s) := r in
    if negb ok then
      threadexec_deinit (amfid_tx s) ;;~                       (* fail_1 *)
      lift (printf "amfidupe: exit") ;;~                       (* fail_0 *)
      ret_main (Exited ret, s)
    else
      r <~ lift (run_amfid_server server s (m_reply k) (m_script k)) ;;
      match fst r with
      | Aborted => ret_main (Crashed, s)
      | Receiving => ret_main (Serving, s)
      | Returned =>
          let ret := 0 in
          s <~ lift (restore_amfid_port (m_restore k) s) ;;
          threadexec_deinit (amfid_tx s) ;;~                   (* fail_1 *)
          lift (printf "amfidupe: exit") ;;~                   (* fail_0 *)
          ret_main (Exited ret, s)
      end.

(** Answers of a run where everything is set up, the example requests are
    served, and the port is put back. *)
Definition example_main : main_answers :=
  {| m_sigaction := fun signum => if signal_eqb signum SIGEMT then -1 else 0;
     m_create := all_created;
     m_replace := all_replaced;
     m_reply := example_reply;
     m_script := example_script;
     m_restore := KERN_SUCCESS |}.


(** Two requests for [permit_unrestricted_debugging], served without a
    hitch. *)
Definition happy_script : list relay_answers :=
  [turn_ok (example_request permit_unrestricted_debugging "" 0 0x4503);
   turn_ok (example_request permit_unrestricted_debugging "" 0 0x4603)].

(** Answers of a run that serves two requests and is then waiting, and of
    a run where amfid is not found. *)
Definition serving_main : main_answers :=
  {| m_sigaction := fun _ => 0;
     m_create := all_created;
     m_replace := all_replaced;
     m_reply := example_reply;
     m_script := happy_script;
     m_restore := KERN_SUCCESS |}.

Definition no_amfid_main : main_answers :=
  {| m_sigaction := fun _ => 0;
     m_create := {| c_proc_list := false; c_host_get := KERN_SUCCESS;
                    c_threadexec_init := true |};
     m_replace := all_replaced;
     m_reply := example_reply;
     m_script := example_script;
     m_restore := KERN_SUCCESS |}.

(** ** What a completed relay looks like *)

(** The reply port the loop hands to amfid: the one the server left in the
    reply, or MACH_PORT_NULL when the reply says MIG_NO_REPLY. *)
Definition reply_port_of (r : reply_t) : mach_port_t :=
  if RetCode r =? MIG_NO_REPLY then MACH_PORT_NULL
  else msgh_remote_port (Head r).

(** The calls that end the relay of a reply whose reply port is [port], in
    a turn after which the loop goes on.  Either the port was inserted into
    amfid and amfid sent the reply under the name it got; or the insertion
    failed and the port was released in this task; or the send failed and
    the inserted name was released in amfid.  In the last two cases amfid
    was then found alive. *)
Inductive relay_completed (tx : threadexec_t) (a : relay_answers)
    (port : mach_port_t) : list Syscall -> Prop :=
| reply_sent (remote : mach_port_t) :
    port_insert a = Some remote ->
    call_cv a = true ->
    relay_completed tx a port
      [SysThreadexecPortInsert port true;
       SysThreadexecCallMachMsgSend remote true]
| reply_dropped_before_insertion :
    port_insert a = None ->
    pid_for_task a = KERN_SUCCESS ->
    relay_completed tx a port
      [SysThreadexecPortInsert port false;
       SysPrintf "Could not move the send-once right into amfid";
       SysPortDeallocate port;
       SysPidForTask (threadexec_task tx) KERN_SUCCESS]
| reply_dropped_after_send (remote : mach_port_t) :
    port_insert a = Some remote ->
    call_cv a = false ->
    pid_for_task a = KERN_SUCCESS ->
    relay_completed tx a port
      [SysThreadexecPortInsert port true;
       SysThreadexecCallMachMsgSend remote false;
       SysPrintf "Could not send our reply from amfid: error %d";
       SysThreadexecPortDeallocate remote;
       SysPidForTask (threadexec_task tx) KERN_SUCCESS].

(** ** The length given to munmap *)

(** [compute_cdhash_of_file] maps [size - file_offset] bytes and releases
    them with [munmap(file, file_offset)].  When the offset is larger than
    the length of the mapping, that call reaches past the mapping into
    whatever memory follows it; what the process does from there on is not
    in the model, which records the call and goes on.  [munmap_overruns]
    says when this happens. *)
Definition munmap_overruns (env : Env) (path : string) (file_offset : Z)
    : bool :=
  match fs env path with
  | Some fd =>
      v_fstat fd && negb (file_size fd <=? file_offset)
      && v_mmap fd (file_size fd - file_offset) file_offset
      && (file_size fd - file_offset <? file_offset)
  | None => false
  end.


(** A file of two pages and eight bytes, mapped at page-aligned offsets,
    and a hash routine that fails. *)
Definition paged_env : Env :=
  {| fs := fun path =>
             if String.eqb path "/usr/libexec/big" then
               Some {| v_data := repeat 0 (Z.to_nat 8200);
                       v_fstat := true;
                       v_mmap := fun _ offset => offset mod 4096 =? 0 |}
             else None;
     compute_cdhash := fun _ => None |}.

(** * Properties of the handlers *)

Lemma memcmp_ne_false (a b : audit_token_t) :
  memcmp_ne a b = false <-> a = b.
Proof.
  revert b; induction a as [|x a IH]; intros [|y b]; simpl;
    try (split; [reflexivity | reflexivity]);
    try (split; discriminate).
  destruct (Z.eqb_spec x y) as [->|Hne].
  - rewrite IH. split; [intros ->; reflexivity | intros [= ->]; reflexivity].
  - split; [discriminate | intros [= E _]; contradiction].
Qed.

Lemma memcmp_ne_true (a b : audit_token_t) :
  memcmp_ne a b = true <-> a <> b.
Proof.
  rewrite <- memcmp_ne_false.
  destruct (memcmp_ne a b); split; congruence.
Qed.

Lemma set_cdhash_same (o : verify_out) : set_cdhash o (cdhash o) = o.
Proof. destruct o; reflexivity. Qed.

(** The result of [compute_cdhash_of_file], branch by branch. *)
Lemma compute_cdhash_of_file_result (env : Env) (path : string)
    (file_offset : Z) (buf : list Z) :
  result (compute_cdhash_of_file env path file_offset buf) =
  match fs env path with
  | None => (false, buf)
  | Some fd =>
      if negb (v_fstat fd) then (false, buf)
      else if file_size fd <=? file_offset then (false, buf)
      else if negb (v_mmap fd (file_size fd - file_offset) file_offset)
      then (false, buf)
      else match compute_cdhash env
                   (skipn (Z.to_nat file_offset) (v_data fd)) with
           | Some d => (true, d)
           | None => (false, buf)
           end
  end.
Proof.
  unfold compute_cdhash_of_file, file_size, result, bind, call, printf, ret.
  simpl.
  destruct (fs env path) as [fd|]; simpl; [|reflexivity].
  destruct (v_fstat fd); simpl; [|reflexivity].
  destruct (_ <=? file_offset); simpl; [reflexivity|].
  destruct (v_mmap fd _ file_offset); simpl; [|reflexivity].
  destruct (compute_cdhash env _); reflexivity.
Qed.


Lemma compute_cdhash_of_file_keeps (env : Env) (path : string)
    (file_offset : Z) (buf : list Z) :
  fst (result (compute_cdhash_of_file env path file_offset buf)) = false ->
  snd (result (compute_cdhash_of_file env path file_offset buf)) = buf.
Proof.
  rewrite compute_cdhash_of_file_result.
  destruct (fs env path) as [fd|]; simpl; [|reflexivity].
  destruct (negb (v_fstat fd)); simpl; [reflexivity|].
  destruct (file_size fd <=? file_offset); simpl; [reflexivity|].
  destruct (negb (v_mmap fd _ file_offset)); simpl; [reflexivity|].
  destruct (compute_cdhash env _); simpl; [discriminate|reflexivity].
Qed.

(** The result of [verify_code_directory_mig] in terms of that of
    [compute_cdhash_of_file]. *)
Lemma verify_code_directory_mig_result (env : Env) (port : mach_port_t)
    (path : string) (file_offset a4 a5 a6 : Z) (out : verify_out)
    (audit : audit_token_t) :
  result (verify_code_directory_mig env port path file_offset a4 a5 a6
            out audit) =
  if memcmp_ne audit KERNEL_AUDIT_TOKEN_VALUE then (KERN_FAILURE, out)
  else
    let r := result (compute_cdhash_of_file env path file_offset
                       (cdhash out)) in
    if fst r then
      (KERN_SUCCESS,
       {| entitlements_valid := 1; signature_valid := 1; unrestrict := 1;
          signer_type := 0; is_apple := 1; is_developer_code := 0;
          a13 := a13 out; cdhash := snd r |})
    else (KERN_FAILURE, set_cdhash out (snd r)).
Proof.
  unfold verify_code_directory_mig.
  destruct (memcmp_ne audit KERNEL_AUDIT_TOKEN_VALUE); [reflexivity|].
  unfold result at 1, bind at 1, printf, call.
  unfold result, bind at 1.
  destruct (compute_cdhash_of_file env path file_offset (cdhash out))
    as [[ok digest] t].
  destruct ok; reflexivity.
Qed.

Example verify_ls :
  verify_code_directory_mig example_env 0x1503 "/bin/ls" 0 0 0 0
    example_out KERNEL_AUDIT_TOKEN_VALUE =
  ((KERN_SUCCESS,
    {| entitlements_valid := 1; signature_valid := 1; unrestrict := 1;
       signer_type := 0; is_apple := 1; is_developer_code := 0;
       a13 := [0; 0; 0; 0]; cdhash := repeat 0xc1 20 |}),
   [SysPrintf "%s(%s, %llu, %u, %u, %u)"; SysOpen "/bin/ls"; SysFstat;
    SysMmap 8 0; SysComputeCdhash 8; SysMunmap 0; SysClose]).
Proof. reflexivity. Qed.

Example verify_ls_past_the_end :
  verify_code_directory_mig example_env 0x1503 "/bin/ls" 4096 0 0 0
    example_out KERNEL_AUDIT_TOKEN_VALUE =
  ((KERN_FAILURE, example_out),
   [SysPrintf "%s(%s, %llu, %u, %u, %u)"; SysOpen "/bin/ls"; SysFstat;
    SysPrintf "Invalid file offset"; SysClose]).
Proof. reflexivity. Qed.

(** C1.  When the sender token is the kernel's and the hash of the file is
    computed, [verify_code_directory_mig] returns KERN_SUCCESS with
    entitlements_valid = signature_valid = unrestrict = is_apple = 1 and
    is_developer_code = signer_type = 0, whatever the path, the offset, a4,
    a5, a6 and the previous content of the out-parameters. *)
Theorem verify_code_directory_grants_all (env : Env) (port : mach_port_t)
    (path : string) (file_offset a4 a5 a6 : Z) (out : verify_out)
    (audit : audit_token_t) :
  audit = KERNEL_AUDIT_TOKEN_VALUE ->
  fst (result (compute_cdhash_of_file env path file_offset (cdhash out)))
    = true ->
  let (kr, out') :=
    result (verify_code_directory_mig env port path file_offset a4 a5 a6
              out audit) in
  kr = KERN_SUCCESS /\
  entitlements_valid out' = 1 /\ signature_valid out' = 1 /\
  unrestrict out' = 1 /\ is_apple out' = 1 /\
  is_developer_code out' = 0 /\ signer_type out' = 0.
Proof.
  intros Haudit Hok.
  rewrite verify_code_directory_mig_result.
  apply memcmp_ne_false in Haudit. rewrite Haudit.
  cbv zeta. rewrite Hok. simpl. repeat split.
Qed.

Lemma verify_code_directory_grants_all_witness :
  KERNEL_AUDIT_TOKEN_VALUE = KERNEL_AUDIT_TOKEN_VALUE /\
  fst (result (compute_cdhash_of_file example_env "/bin/ls" 0
                 (cdhash example_out))) = true /\
  let (kr, out') :=
    result (verify_code_directory_mig example_env 0x1503 "/bin/ls" 0 3 1 4
              example_out KERNEL_AUDIT_TOKEN_VALUE) in
  kr = KERN_SUCCESS /\
  entitlements_valid out' = 1 /\ signature_valid out' = 1 /\
  unrestrict out' = 1 /\ is_apple out' = 1 /\
  is_developer_code out' = 0 /\ signer_type out' = 0.
Proof.
  split; [reflexivity|]. split; [reflexivity|].
  apply (verify_code_directory_grants_all example_env 0x1503 "/bin/ls"
           0 3 1 4 example_out KERNEL_AUDIT_TOKEN_VALUE);
    reflexivity.
Defined.

(** C2.  When the sender token is not the kernel's,
    [verify_code_directory_mig] returns KERN_FAILURE after logging the
    invalid sender, its out-parameters are as before, and the only calls it
    made are the two [printf]: no file was opened, stat'ed, mapped or
    hashed. *)
Theorem verify_code_directory_rejects_sender (env : Env) (port : mach_port_t)
    (path : string) (file_offset a4 a5 a6 : Z) (out : verify_out)
    (audit : audit_token_t) :
  audit <> KERNEL_AUDIT_TOKEN_VALUE ->
  let run := verify_code_directory_mig env port path file_offset a4 a5 a6
               out audit in
  result run = (KERN_FAILURE, out) /\
  trace run = [SysPrintf "%s(%s, %llu, %u, %u, %u)";
               SysPrintf "%s: Invalid sender %d"] /\
  existsb is_file_access (trace run) = false.
Proof.
  intros Hne run. subst run.
  apply memcmp_ne_true in Hne.
  unfold verify_code_directory_mig. rewrite Hne.
  repeat split.
Qed.

Lemma verify_code_directory_rejects_sender_witness :
  forged_token <> KERNEL_AUDIT_TOKEN_VALUE /\
  let run := verify_code_directory_mig example_env 0x1503 "/bin/ls" 0 0 0 0
               example_out forged_token in
  result run = (KERN_FAILURE, example_out) /\
  trace run = [SysPrintf "%s(%s, %llu, %u, %u, %u)";
               SysPrintf "%s: Invalid sender %d"] /\
  existsb is_file_access (trace run) = false.
Proof.
  assert (H : forged_token <> KERNEL_AUDIT_TOKEN_VALUE) by discriminate.
  split; [exact H|].
  exact (verify_code_directory_rejects_sender example_env 0x1503 "/bin/ls"
           0 0 0 0 example_out forged_token H).
Defined.

(** C9.  [permit_unrestricted_debugging_v2] returns KERN_FAILURE for every
    port, every previous content of its out-parameter and every sender
    token. *)
Theorem permit_unrestricted_debugging_always_fails (port : mach_port_t)
    (unrestricted : Z) (audit : audit_token_t) :
  fst (result (permit_unrestricted_debugging_v2 port unrestricted audit))
  = KERN_FAILURE /\
  fst (result (permit_unrestricted_debugging_v2 port unrestricted audit))
  <> KERN_SUCCESS.
Proof. split; [reflexivity | discriminate]. Qed.

(** C10.  [permit_unrestricted_debugging_v2] does not write its
    out-parameter: after the call it holds what it held before, for every
    input; the only call made is the [printf]. *)
Theorem permit_unrestricted_debugging_writes_nothing (port : mach_port_t)
    (unrestricted : Z) (audit : audit_token_t) :
  snd (result (permit_unrestricted_debugging_v2 port unrestricted audit))
  = unrestricted /\
  trace (permit_unrestricted_debugging_v2 port unrestricted audit)
  = [SysPrintf "%s()"].
Proof. split; reflexivity. Qed.

(** * Properties of the port swap *)

#[local] Arguments Z.eqb : simpl never.

(** Case analysis on whether a return code is KERN_SUCCESS. *)
Ltac kr_case kr :=
  let E := fresh "Hkr" in
  destruct (kr =? KERN_SUCCESS) eqn:E; simpl; rewrite ?E; simpl.

Lemma set_slot_same (s : State) : set_slot s (host_amfid_port_slot s) = s.
Proof. destruct s; reflexivity. Qed.

Lemma set_fake_amfid_port_same (s : State) :
  set_fake_amfid_port s (fake_amfid_port s) = s.
Proof. destruct s; reflexivity. Qed.

(** What a successful [replace_amfid_port] has done. *)
Lemma replace_amfid_port_true (k : replace_answers) (s : State) :
  fst (result (replace_amfid_port k s)) = true ->
  let s1 := snd (result (replace_amfid_port k s)) in
  amfid_port s1 = host_amfid_port_slot s /\
  fake_amfid_port s1 = snd (r_construct k) /\
  host_amfid_port_slot s1 = fake_amfid_port s1 /\
  host_port_main s1 = mach_host_self s.
Proof.
  unfold replace_amfid_port, host_get_amfid_port, mach_port_construct,
    host_set_amfid_port, result, bind, call, printf, ret.
  destruct k as [g [c n] t]; simpl.
  kr_case g; [|discriminate].
  kr_case c; [|discriminate].
  kr_case t; [|discriminate].
  intros _. repeat split.
Qed.

(** The state [restore_amfid_port] leaves. *)
Lemma restore_amfid_port_result (kr : kern_return_t) (s : State) :
  result (restore_amfid_port kr s) =
  let s1 := if kr =? KERN_SUCCESS then set_slot s (amfid_port s) else s in
  let s2 := if fake_amfid_port s =? MACH_PORT_NULL then s1
            else set_ipc_space s1
                   (filter (fun n => negb (n =? fake_amfid_port s))
                      (ipc_space s)) in
  set_fake_amfid_port s2 MACH_PORT_NULL.
Proof.
  unfold restore_amfid_port, host_set_amfid_port, mach_port_destroy, result,
    bind, call, printf, ret.
  kr_case kr;
    destruct (fake_amfid_port s =? MACH_PORT_NULL) eqn:Hnull; simpl;
    rewrite ?Hnull; reflexivity.
Qed.

(** Once the fake port is gone and the slot holds the saved port, another
    [restore_amfid_port] changes nothing. *)
Lemma restore_amfid_port_again (kr : kern_return_t) (s : State) :
  fake_amfid_port s = MACH_PORT_NULL ->
  kr <> KERN_SUCCESS \/ host_amfid_port_slot s = amfid_port s ->
  result (restore_amfid_port kr s) = s.
Proof.
  intros Hfake Hslot. rewrite restore_amfid_port_result. cbv zeta.
  replace (fake_amfid_port s =? MACH_PORT_NULL) with true
    by (rewrite Hfake; reflexivity).
  cbv iota.
  destruct (Z.eqb_spec kr KERN_SUCCESS) as [Hkr|Hkr].
  - destruct Hslot as [Hne|Heq]; [contradiction|].
    rewrite <- Heq, set_slot_same, <- Hfake.
    apply set_fake_amfid_port_same.
  - rewrite <- Hfake. apply set_fake_amfid_port_same.
Qed.

(** C3, as the code has it.  After a successful [replace_amfid_port], which
    saved in [amfid_port] the port it read from the special-port slot:
    - a [restore_amfid_port] whose [host_set_amfid_port] succeeds puts that
      port back in the slot, and one whose call fails leaves the fake port
      registered;
    - a second [restore_amfid_port] leaves the whole state (slot, globals,
      IPC space) as the first one left it, when the first one's call
      succeeded or the second one's call fails. *)
Theorem hijack_restore_roundtrip (k : replace_answers) (s : State)
    (kr1 kr2 : kern_return_t) :
  fst (result (replace_amfid_port k s)) = true ->
  let s1 := snd (result (replace_amfid_port k s)) in
  let s2 := result (restore_amfid_port kr1 s1) in
  let s3 := result (restore_amfid_port kr2 s2) in
  amfid_port s1 = host_amfid_port_slot s /\
  (kr1 = KERN_SUCCESS -> host_amfid_port_slot s2 = host_amfid_port_slot s) /\
  (kr1 <> KERN_SUCCESS -> host_amfid_port_slot s2 = fake_amfid_port s1) /\
  fake_amfid_port s2 = MACH_PORT_NULL /\
  (kr1 = KERN_SUCCESS \/ kr2 <> KERN_SUCCESS -> s3 = s2).
Proof.
  intros Hok s1 s2 s3.
  destruct (replace_amfid_port_true k s Hok) as (Hsaved & _ & Hslot & _).
  fold s1 in Hsaved, Hslot.
  assert (Hs2 : host_amfid_port_slot s2 =
                if kr1 =? KERN_SUCCESS then amfid_port s1
                else host_amfid_port_slot s1).
  { subst s2. rewrite restore_amfid_port_result. cbv zeta.
    destruct (kr1 =? KERN_SUCCESS);
      destruct (fake_amfid_port s1 =? MACH_PORT_NULL); reflexivity. }
  assert (Hp2 : amfid_port s2 = amfid_port s1).
  { subst s2. rewrite restore_amfid_port_result. cbv zeta.
    destruct (kr1 =? KERN_SUCCESS);
      destruct (fake_amfid_port s1 =? MACH_PORT_NULL); reflexivity. }
  assert (Hf2 : fake_amfid_port s2 = MACH_PORT_NULL).
  { subst s2. rewrite restore_amfid_port_result. reflexivity. }
  split; [exact Hsaved|].
  split.
  { intros ->. rewrite Hs2. simpl. exact Hsaved. }
  split.
  { intros Hne. rewrite Hs2.
    destruct (Z.eqb_spec kr1 KERN_SUCCESS); [contradiction|exact Hslot]. }
  split; [exact Hf2|].
  intros Hcase. subst s3. apply restore_amfid_port_again; [exact Hf2|].
  destruct Hcase as [->|Hne]; [right|left; exact Hne].
  rewrite Hs2, Hp2. reflexivity.
Qed.

Lemma hijack_restore_roundtrip_witness :
  fst (result (replace_amfid_port all_replaced example_state)) = true /\
  let s1 := snd (result (replace_amfid_port all_replaced example_state)) in
  let s2 := result (restore_amfid_port KERN_SUCCESS s1) in
  let s3 := result (restore_amfid_port KERN_NO_ACCESS s2) in
  amfid_port s1 = 0x1403 /\
  (KERN_SUCCESS = KERN_SUCCESS -> host_amfid_port_slot s2 = 0x1403) /\
  (KERN_SUCCESS <> KERN_SUCCESS ->
   host_amfid_port_slot s2 = fake_amfid_port s1) /\
  fake_amfid_port s2 = MACH_PORT_NULL /\
  (KERN_SUCCESS = KERN_SUCCESS \/ KERN_NO_ACCESS <> KERN_SUCCESS -> s3 = s2).
Proof.
  split; [reflexivity|].
  apply (hijack_restore_roundtrip all_replaced example_state
           KERN_SUCCESS KERN_NO_ACCESS).
  reflexivity.
Defined.

(** C3 as stated fails: when the kernel refuses the [host_set_amfid_port] of
    [restore_amfid_port], the fake port stays registered although
    [replace_amfid_port] had succeeded; and a second [restore_amfid_port]
    whose call then succeeds changes the slot again. *)
Lemma hijack_restore_roundtrip_counterexample :
  let s1 := snd (result (replace_amfid_port all_replaced example_state)) in
  let s2 := result (restore_amfid_port KERN_NO_ACCESS s1) in
  let s3 := result (restore_amfid_port KERN_SUCCESS s2) in
  fst (result (replace_amfid_port all_replaced example_state)) = true /\
  host_amfid_port_slot example_state = 0x1403 /\
  host_amfid_port_slot s2 = 0x3b03 /\
  host_amfid_port_slot s2 <> host_amfid_port_slot example_state /\
  host_amfid_port_slot s3 <> host_amfid_port_slot s2.
Proof.
  cbv zeta. repeat split; try reflexivity; discriminate.
Qed.

(** * Properties of create_amfid_threadexec *)

(** [create_amfid_threadexec] fails unless exactly one process runs
    [AMFID_PATH], and when [threadexec_init] fails. *)
Lemma create_amfid_threadexec_true (k : create_answers) (s : State) :
  fst (result (create_amfid_threadexec k s)) = true ->
  List.length (find_by_path (procs s) AMFID_PATH) = 1%nat /\
  c_threadexec_init k = true.
Proof.
  unfold create_amfid_threadexec, proc_list_pids_with_path,
    host_get_amfid_port, threadexec_init, result, bind, call, printf, ret.
  destruct k as [l g i]; simpl.
  destruct l; simpl; [|discriminate].
  destruct (find_by_path (procs s) AMFID_PATH) as [|p [|q found]]; simpl;
    [discriminate| |].
  - kr_case g; [|discriminate]. destruct i; simpl; [|discriminate].
    intros _. split; reflexivity.
  - destruct (1 <? _) eqn:Hcount; simpl; [discriminate|].
    apply Z.ltb_ge in Hcount. lia.
Qed.

(** The context a successful [create_amfid_threadexec] leaves in [amfid_tx]
    is bound to the port read from the HOST_AMFID_PORT slot. *)
Lemma create_amfid_threadexec_task (k : create_answers) (s : State) :
  fst (result (create_amfid_threadexec k s)) = true ->
  amfid_tx (snd (result (create_amfid_threadexec k s))) =
  Some {| tx_task := host_amfid_port_slot s |}.
Proof.
  unfold create_amfid_threadexec, proc_list_pids_with_path,
    host_get_amfid_port, threadexec_init, result, bind, call, printf, ret.
  destruct k as [l g i]; simpl.
  destruct l; simpl; [|discriminate].
  destruct (Z.of_nat _ =? 0); simpl; [discriminate|].
  destruct (1 <? Z.of_nat _); simpl; [discriminate|].
  kr_case g; [|discriminate]. destruct i; simpl; [|discriminate].
  reflexivity.
Qed.

(** C5 on the code.  With amfid running alone as process 131, its task port
    0x2503 and its service port 0x1403 registered as the special port,
    [create_amfid_threadexec] succeeds and binds the context to the service
    port: the PID it found is printed and not used, and the handle is not
    the one [task_for_pid] gives for it. *)
Theorem create_amfid_threadexec_binds_service_port :
  let run := create_amfid_threadexec all_created example_state in
  fst (result run) = true /\
  find_by_path (procs example_state) AMFID_PATH = [131] /\
  task_for_pid (procs example_state) 131 = Some 0x2503 /\
  amfid_tx (snd (result run)) = Some {| tx_task := 0x1403 |} /\
  option_map tx_task (amfid_tx (snd (result run)))
    <> task_for_pid (procs example_state) 131 /\
  trace run = [SysProcListPids AMFID_PATH; SysPrintf "Amfid PID: %d";
               SysHostGetAmfidPort 0x0c03; SysThreadexecInit 0x1403].
Proof.
  cbv zeta. repeat split; try reflexivity; discriminate.
Qed.

(** * Properties of the relay loop *)

(** Unfolds one turn of the loop down to its branches. *)
Ltac rewrite_tests :=
  repeat match goal with
         | H : _ = true |- _ => rewrite H
         | H : _ = false |- _ => rewrite H
         end.

Ltac branch :=
  match goal with
  | |- context [negb ?c] => destruct c eqn:?
  | |- context [if ?c then _ else _] => destruct c eqn:?
  | |- context [match ?x with Some _ => _ | None => _ end] =>
      destruct x eqn:?
  end; simpl; rewrite_tests; simpl.

Ltac turn_cases server a reply :=
  unfold serve_one, check_amfid, result, trace, bind, call, printf, ret;
  destruct a as [rk rq ins cv pk]; simpl;
  destruct (server rq reply) as [r calls]; simpl;
  repeat branch.

(** Finds the [SysPidForTask] of [H : concrete trace = pre ++ _ :: post]. *)
Ltac locate_check H pre :=
  destruct pre as [|? pre]; simpl in H;
  [ try discriminate H | try discriminate H; injection H as ? H;
                         locate_check H pre ].

Ltac eqb_facts :=
  repeat match goal with
         | E : (_ =? _) = true |- _ => apply Z.eqb_eq in E
         | E : (_ =? _) = false |- _ => apply Z.eqb_neq in E
         end.

(** Closes a branch of [serve_one_liveness] once the check is located. *)
Ltac finish_check H :=
  injection H as ? ? ?; subst;
  split;
  [ match goal with
    | |- exists pre' name, ?l = _ \/ _ =>
        exists (firstn (List.length l - 3)%nat l)
    end; simpl; eexists; first [left; reflexivity | right; reflexivity]
  | split; intros Hkr;
    first [ split; reflexivity | exfalso; eqb_facts; congruence ] ].

Section RelayFacts.

Variable server : request_t -> reply_t -> IO reply_t.
Variable tx : threadexec_t.
Variable fake_port : mach_port_t.

(** A turn starts with the receive and receives only once; when the loop
    goes on after it, the relay of its reply is over. *)
Lemma serve_one_shape (a : relay_answers) (reply : reply_t) :
  exists body,
    trace (serve_one server tx fake_port a reply)
    = SysMachMsgReceive fake_port :: body /\
    existsb is_receive body = false /\
    (fst (result (serve_one server tx fake_port a reply)) = Continue ->
     existsb relay_done body = true).
Proof.
  turn_cases server a reply;
    (eexists; split; [reflexivity|]; split; [reflexivity|]);
    solve [reflexivity | discriminate].
Qed.

(** The trace of the loop: the first turn, then the rest if the loop went
    on. *)
Lemma serve_cons (a : relay_answers) (script : list relay_answers)
    (reply : reply_t) :
  let turn := serve_one server tx fake_port a reply in
  trace (serve server tx fake_port (a :: script) reply) =
  trace turn ++
  match fst (result turn) with
  | Continue => trace (serve server tx fake_port script (snd (result turn)))
  | _ => []
  end /\
  fst (result (serve server tx fake_port (a :: script) reply)) =
  match fst (result turn) with
  | Continue =>
      fst (result (serve server tx fake_port script (snd (result turn))))
  | Break => Returned
  | Abort => Aborted
  end.
Proof.
  cbv zeta. simpl serve. unfold bind, result, trace.
  destruct (serve_one server tx fake_port a reply) as [[c reply'] t]; simpl.
  destruct c; simpl.
  - destruct (serve server tx fake_port script reply') as [[e r] t'].
    split; reflexivity.
  - split; reflexivity.
  - split; reflexivity.
Qed.

(** An element that satisfies [p] is not in a prefix where nothing does. *)
Lemma split_past (p : Syscall -> bool) (body rest l1 l2 : list Syscall)
    (e : Syscall) :
  l1 ++ e :: l2 = body ++ rest ->
  p e = true ->
  existsb p body = false ->
  exists l, l1 = body ++ l /\ l ++ e :: l2 = rest.
Proof.
  revert l1. induction body as [|x body IH]; intros l1 Heq He Hbody.
  - exists l1. split; [reflexivity | exact Heq].
  - simpl in Hbody. apply orb_false_elim in Hbody as [Hx Hbody].
    destruct l1 as [|y l1]; simpl in Heq; injection Heq as Hhd Htl.
    + subst x. congruence.
    + subst y. destruct (IH l1 Htl He Hbody) as (l & -> & Hrest).
      exists l. split; [reflexivity | exact Hrest].
Qed.

(** Within a turn, [pid_for_task] is called only right after the reply
    port was released because the insertion or the send failed; a dead
    amfid ends the turn with a break, a live one lets the loop go on. *)
Lemma serve_one_liveness (a : relay_answers) (reply : reply_t)
    (pre post : list Syscall) (task : mach_port_t) (kr : kern_return_t) :
  trace (serve_one server tx fake_port a reply)
  = pre ++ SysPidForTask task kr :: post ->
  (exists pre' name,
      pre = pre' ++ [SysThreadexecPortInsert name false;
                     SysPrintf "Could not move the send-once right into amfid";
                     SysPortDeallocate name] \/
      pre = pre' ++ [SysThreadexecCallMachMsgSend name false;
                     SysPrintf "Could not send our reply from amfid: error %d";
                     SysThreadexecPortDeallocate name]) /\
  (kr <> KERN_SUCCESS ->
   post = [SysPrintf "Amfid died"] /\
   fst (result (serve_one server tx fake_port a reply)) = Break) /\
  (kr = KERN_SUCCESS ->
   post = [] /\
   fst (result (serve_one server tx fake_port a reply)) = Continue).
Proof.
  turn_cases server a reply; intros Htrace.
  all: locate_check Htrace pre.
  all: finish_check Htrace.
Qed.

(** When the insertion and the send succeed, the turn makes no
    [pid_for_task]. *)
Lemma serve_one_happy (a : relay_answers) (reply : reply_t) :
  is_some (port_insert a) = true ->
  call_cv a = true ->
  existsb is_liveness_check (trace (serve_one server tx fake_port a reply))
  = false.
Proof.
  turn_cases server a reply; intros Hins Hcv;
    solve [reflexivity | discriminate].
Qed.

(** The loop starts with a receive, unless it has nothing to run. *)
Lemma serve_head (script : list relay_answers) (reply : reply_t) :
  (script = [] /\
   trace (serve server tx fake_port script reply) = [] /\
   fst (result (serve server tx fake_port script reply)) = Receiving) \/
  exists tl,
    trace (serve server tx fake_port script reply)
    = SysMachMsgReceive fake_port :: tl.
Proof.
  destruct script as [|a script].
  - left. repeat split.
  - right.
    destruct (serve_cons a script reply) as [Hcons _]. cbv zeta in Hcons.
    destruct (serve_one_shape a reply) as (body & Hturn & _).
    rewrite Hcons, Hturn. simpl. eexists. reflexivity.
Qed.

(** A complex reply stops the turn at the first assertion, before any call
    in amfid. *)
Lemma serve_one_complex (a : relay_answers) (reply : reply_t) :
  rcv_kr a = KERN_SUCCESS ->
  MACH_MSGH_BITS_IS_COMPLEX
    (msgh_bits (Head (result (server (rcv_request a) reply)))) = true ->
  fst (result (serve_one server tx fake_port a reply)) = Abort /\
  trace (serve_one server tx fake_port a reply) =
  [SysMachMsgReceive fake_port;
   SysAmfidServer (trace (server (rcv_request a) reply));
   SysAssertFailed "!MACH_MSGH_BITS_IS_COMPLEX(reply->Head.msgh_bits)"].
Proof.
  unfold serve_one, result, trace, bind, call, printf, ret.
  destruct a as [rk rq ins cv pk]; simpl. intros -> Hcx.
  destruct (server rq reply) as [r calls]; simpl in *.
  change (KERN_SUCCESS =? KERN_SUCCESS) with true. simpl.
  rewrite Hcx. simpl. rewrite Hcx. split; reflexivity.
Qed.

(** A turn whose reply is simple, is not MIG_NO_REPLY and carries a
    send-once reply port goes through the relay: it ends the loop only
    when the relay fails and amfid is dead. *)
Lemma serve_one_relays (a : relay_answers) (reply : reply_t) :
  rcv_kr a = KERN_SUCCESS ->
  let r := result (server (rcv_request a) reply) in
  MACH_MSGH_BITS_IS_COMPLEX (msgh_bits (Head r)) = false ->
  (RetCode r =? MIG_NO_REPLY) = false ->
  MACH_MSGH_BITS_REMOTE (msgh_bits (Head r)) = MACH_MSG_TYPE_MOVE_SEND_ONCE ->
  let turn := serve_one server tx fake_port a reply in
  fst (result turn) =
    (if is_some (port_insert a) && call_cv a then Continue
     else if pid_for_task a =? KERN_SUCCESS then Continue else Break) /\
  RetCode (snd (result turn)) = RetCode r /\
  verify (snd (result turn)) = verify r /\
  In (SysThreadexecPortInsert (msgh_remote_port (Head r))
        (is_some (port_insert a))) (trace turn).
Proof.
  unfold serve_one, check_amfid, result, trace, bind, call, printf, ret.
  destruct a as [rk rq ins cv pk]; simpl. intros ->.
  destruct (server rq reply) as [r calls]; simpl.
  intros Hcx Hnr Hso.
  change (KERN_SUCCESS =? KERN_SUCCESS) with true. simpl.
  rewrite Hcx, Hnr. simpl.
  assert (Hso' : (MACH_MSGH_BITS_REMOTE (msgh_bits (Head r))
                  =? MACH_MSG_TYPE_MOVE_SEND_ONCE) = true)
    by (rewrite Hso; reflexivity).
  kr_case (RetCode r); rewrite ?Hcx, ?Hso'; simpl;
    (destruct ins as [remote|]; simpl;
     [destruct cv; simpl|]; try kr_case pk;
     repeat split; auto 10 using in_eq, in_cons).
Qed.

(** The first assertion holds in a turn whose reply is simple. *)
Lemma serve_one_simple (a : relay_answers) (reply : reply_t) :
  MACH_MSGH_BITS_IS_COMPLEX
    (msgh_bits (Head (result (server (rcv_request a) reply)))) = false ->
  ~ In (SysAssertFailed "!MACH_MSGH_BITS_IS_COMPLEX(reply->Head.msgh_bits)")
       (trace (serve_one server tx fake_port a reply)).
Proof.
  turn_cases server a reply; intros Hcx Hin; simpl in Hin;
    intuition (try discriminate; try congruence).
Qed.

End RelayFacts.

Lemma filter_nothing (p : Syscall -> bool) (l : list Syscall) :
  existsb p l = false -> filter p l = [].
Proof.
  induction l as [|x l IH]; [reflexivity|].
  simpl. destruct (p x); [discriminate|]. exact IH.
Qed.

(** A turn after which the loop goes on has received a request, run the
    server on it and completed the relay of the reply to the reply port of
    that reply; between the server and the relay it has at most destroyed
    the request. *)
Lemma serve_one_completes (server : request_t -> reply_t -> IO reply_t)
    (tx : threadexec_t) (fake_port : mach_port_t) (a : relay_answers)
    (buf : reply_t) :
  fst (result (serve_one server tx fake_port a buf)) = Continue ->
  rcv_kr a = KERN_SUCCESS /\
  exists tail,
    trace (serve_one server tx fake_port a buf) =
      SysMachMsgReceive fake_port
      :: SysAmfidServer (trace (server (rcv_request a) buf))
      :: (if (RetCode (result (server (rcv_request a) buf)) =? MIG_NO_REPLY)
             || (RetCode (result (server (rcv_request a) buf))
                 =? KERN_SUCCESS)
          then [] else [SysMachMsgDestroy MACH_PORT_NULL])
      ++ tail /\
    relay_completed tx a
      (reply_port_of (result (server (rcv_request a) buf))) tail.
Proof.
  unfold reply_port_of.
  turn_cases server a buf; intros Hgo; try discriminate Hgo;
    eqb_facts; subst;
    (split; [reflexivity|]); eexists; (split; [reflexivity|]);
    solve [ eapply reply_sent; reflexivity
          | eapply reply_dropped_before_insertion; reflexivity
          | eapply reply_dropped_after_send; reflexivity ].
Qed.

(** C6.  In every run of the loop, take any two receives of the trace, in
    that order.  The first one is the receive of a request of the script:
    the request number k, if k receives came before it.  What lies between
    the two receives starts with the whole rest of that request's turn: the
    server run on that very request, the request destroyed if its reply is
    an error, and then the relay of that reply completed on its own reply
    port: inserted and sent by amfid, or released after the failed
    insertion, or released in amfid after the failed send.  Whatever comes
    after it before the second receive starts with another receive. *)
Theorem relay_done_before_next_receive
    (server : request_t -> reply_t -> IO reply_t) (tx : threadexec_t)
    (fake_port : mach_port_t) (script : list relay_answers) (reply : reply_t)
    (pre mid post : list Syscall) (e1 e2 : Syscall) :
  trace (serve server tx fake_port script reply)
  = pre ++ e1 :: mid ++ e2 :: post ->
  is_receive e1 = true ->
  is_receive e2 = true ->
  exists (a : relay_answers) (buf : reply_t) (tail later : list Syscall),
    nth_error script (List.length (filter is_receive pre)) = Some a /\
    e1 = SysMachMsgReceive fake_port /\
    rcv_kr a = KERN_SUCCESS /\
    mid = SysAmfidServer (trace (server (rcv_request a) buf))
          :: (if (RetCode (result (server (rcv_request a) buf))
                  =? MIG_NO_REPLY)
                 || (RetCode (result (server (rcv_request a) buf))
                     =? KERN_SUCCESS)
              then [] else [SysMachMsgDestroy MACH_PORT_NULL])
          ++ tail ++ later /\
    relay_completed tx a
      (reply_port_of (result (server (rcv_request a) buf))) tail /\
    (later = [] \/ exists l, later = SysMachMsgReceive fake_port :: l).
Proof.
  revert reply pre.
  induction script as [|a script IH]; intros reply pre Htrace He1 He2.
  - destruct pre; discriminate Htrace.
  - destruct (serve_cons server tx fake_port a script reply) as [Hcons _].
    cbv zeta in Hcons. rewrite Hcons in Htrace. clear Hcons.
    destruct (serve_one_shape server tx fake_port a reply)
      as (body & Hturn & Hone & _).
    rewrite Hturn in Htrace. simpl in Htrace.
    destruct pre as [|x pre]; simpl in Htrace; injection Htrace as Hhd Htl.
    + (* the first receive is that of this turn *)
      destruct (split_past is_receive body _ mid post e2 (eq_sym Htl) He2
                  Hone) as (l & Hmid & Hrest).
      destruct (fst (result (serve_one server tx fake_port a reply)))
        eqn:Hgo;
        [| destruct l; discriminate Hrest | destruct l; discriminate Hrest].
      destruct (serve_one_completes server tx fake_port a reply Hgo)
        as (Hrcv & tail & Htr & Hdone).
      rewrite Hturn in Htr. injection Htr as Hbody.
      exists a, reply, tail, l.
      split; [reflexivity|]. split; [symmetry; exact Hhd|].
      split; [exact Hrcv|]. split.
      { rewrite Hmid, Hbody. simpl. rewrite <- app_assoc. reflexivity. }
      split; [exact Hdone|].
      destruct l as [|y l]; [left; reflexivity|right].
      destruct (serve_head server tx fake_port script
                  (snd (result (serve_one server tx fake_port a reply))))
        as [(_ & Hnil & _) | [tl Htl']].
      * rewrite Hnil in Hrest. discriminate Hrest.
      * rewrite Htl' in Hrest. injection Hrest as -> _. exists l.
        reflexivity.
    + (* the first receive is that of a later turn *)
      destruct (split_past is_receive body _ pre (mid ++ e2 :: post) e1
                  (eq_sym Htl) He1 Hone) as (l & Hpre & Hrest).
      destruct (fst (result (serve_one server tx fake_port a reply)));
        [| destruct l; discriminate Hrest | destruct l; discriminate Hrest].
      destruct (IH _ l (eq_sym Hrest) He1 He2)
        as (b & buf & tail & later & Hnth & Hrest').
      exists b, buf, tail, later. split; [|exact Hrest'].
      rewrite <- Hhd, Hpre. simpl.
      rewrite filter_app, (filter_nothing _ _ Hone). exact Hnth.
Qed.

Example example_run_trace :
  fst (result example_run) = Returned /\
  trace example_run =
  [SysMachMsgReceive 0x3b03;
   SysAmfidServer
     [SysPrintf "%s(%s, %llu, %u, %u, %u)"; SysOpen "/bin/ls"; SysFstat;
      SysMmap 8 0; SysComputeCdhash 8; SysMunmap 0; SysClose];
   SysThreadexecPortInsert 0x4103 true;
   SysThreadexecCallMachMsgSend 0x7a03 true;
   SysMachMsgReceive 0x3b03;
   SysAmfidServer [SysPrintf "%s()"];
   SysMachMsgDestroy 0;
   SysThreadexecPortInsert 0x4203 false;
   SysPrintf "Could not move the send-once right into amfid";
   SysPortDeallocate 0x4203;
   SysPidForTask 0x2503 0;
   SysMachMsgReceive 0x3b03;
   SysAmfidServer
     [SysPrintf "%s(%s, %llu, %u, %u, %u)"; SysOpen "/bin/ls"; SysFstat;
      SysPrintf "Invalid file offset"; SysClose];
   SysMachMsgDestroy 0;
   SysThreadexecPortInsert 0x4303 true;
   SysThreadexecCallMachMsgSend 0x7b03 false;
   SysPrintf "Could not send our reply from amfid: error %d";
   SysThreadexecPortDeallocate 0x7b03;
   SysPidForTask 0x2503 5;
   SysPrintf "Amfid died"].
Proof. split; reflexivity. Qed.

Lemma relay_done_before_next_receive_witness :
  let run := serve (amfid_server example_env) example_tx 0x3b03 happy_script
               example_reply in
  let mid := [SysAmfidServer [SysPrintf "%s()"];
              SysMachMsgDestroy MACH_PORT_NULL;
              SysThreadexecPortInsert 0x4503 true;
              SysThreadexecCallMachMsgSend 0x7a03 true] in
  let post := [SysAmfidServer [SysPrintf "%s()"];
               SysMachMsgDestroy MACH_PORT_NULL;
               SysThreadexecPortInsert 0x4603 true;
               SysThreadexecCallMachMsgSend 0x7a03 true] in
  trace run
  = [] ++ SysMachMsgReceive 0x3b03 :: mid ++ SysMachMsgReceive 0x3b03 :: post
  /\
  exists (a : relay_answers) (buf : reply_t) (tail later : list Syscall),
    nth_error happy_script 0 = Some a /\
    SysMachMsgReceive 0x3b03 = SysMachMsgReceive 0x3b03 /\
    rcv_kr a = KERN_SUCCESS /\
    mid = SysAmfidServer
            (trace (amfid_server example_env (rcv_request a) buf))
          :: (if (RetCode (result (amfid_server example_env (rcv_request a)
                                     buf)) =? MIG_NO_REPLY)
                 || (RetCode (result (amfid_server example_env
                                        (rcv_request a) buf))
                     =? KERN_SUCCESS)
              then [] else [SysMachMsgDestroy MACH_PORT_NULL])
          ++ tail ++ later /\
    relay_completed example_tx a
      (reply_port_of (result (amfid_server example_env (rcv_request a) buf)))
      tail /\
    (later = [] \/ exists l, later = SysMachMsgReceive 0x3b03 :: l).
Proof.
  intros run mid post.
  assert (Htrace : trace run
                   = [] ++ SysMachMsgReceive 0x3b03
                           :: mid ++ SysMachMsgReceive 0x3b03 :: post)
    by reflexivity.
  split; [exact Htrace|].
  exact (relay_done_before_next_receive (amfid_server example_env)
           example_tx 0x3b03 happy_script example_reply [] mid post
           (SysMachMsgReceive 0x3b03) (SysMachMsgReceive 0x3b03)
           Htrace eq_refl eq_refl).
Defined.

(** C7.  In every run of the loop:
    - when in each turn the insertion of the reply port and the send from
      amfid succeed, [pid_for_task] is never called;
    - a call of [pid_for_task] comes right after the reply port was
      released because the insertion, or the send, had failed;
    - when it finds amfid dead the loop returns after printing so, with no
      further call in amfid;
    - when it finds amfid alive the next call is the receive of the next
      request (or the loop is waiting in it). *)
Theorem liveness_check_only_after_relay_failure
    (server : request_t -> reply_t -> IO reply_t) (tx : threadexec_t)
    (fake_port : mach_port_t) (script : list relay_answers)
    (reply : reply_t) :
  let run := serve server tx fake_port script reply in
  (Forall (fun a => is_some (port_insert a) = true /\ call_cv a = true)
     script ->
   existsb is_liveness_check (trace run) = false) /\
  forall (pre post : list Syscall) (task : mach_port_t) (kr : kern_return_t),
    trace run = pre ++ SysPidForTask task kr :: post ->
    (exists pre' name,
        pre = pre' ++ [SysThreadexecPortInsert name false;
                       SysPrintf "Could not move the send-once right into amfid";
                       SysPortDeallocate name] \/
        pre = pre' ++ [SysThreadexecCallMachMsgSend name false;
                       SysPrintf "Could not send our reply from amfid: error %d";
                       SysThreadexecPortDeallocate name]) /\
    (kr <> KERN_SUCCESS ->
     post = [SysPrintf "Amfid died"] /\
     existsb is_remote_call post = false /\
     fst (result run) = Returned) /\
    (kr = KERN_SUCCESS ->
     (post = [] /\ fst (result run) = Receiving) \/
     exists post', post = SysMachMsgReceive fake_port :: post').
Proof.
  cbv zeta. split.
  - revert reply. induction script as [|a script IH]; intros reply Hall.
    + reflexivity.
    + inversion Hall as [|? ? [Hins Hcv] Hrest]; subst.
      destruct (serve_cons server tx fake_port a script reply) as [Hcons _].
      cbv zeta in Hcons. rewrite Hcons, existsb_app.
      rewrite (serve_one_happy server tx fake_port a reply Hins Hcv).
      destruct (fst (result (serve_one server tx fake_port a reply)));
        [apply IH; exact Hrest | reflexivity | reflexivity].
  - revert reply.
    induction script as [|a script IH]; intros reply pre post task kr Htrace.
    + destruct pre; discriminate Htrace.
    + destruct (serve_cons server tx fake_port a script reply)
        as [Hcons Hexit].
      cbv zeta in Hcons, Hexit. rewrite Hcons in Htrace. rewrite Hexit.
      clear Hcons Hexit.
      apply app_eq_app in Htrace as [l [[Hturn Hpost]|[Hpre Hrest]]].
      * destruct l as [|x l]; simpl in Hpost.
        { (* a turn cannot start with the check *)
          exfalso. revert Hpost.
          destruct (fst (result (serve_one server tx fake_port a reply)));
            intros Hpost; try discriminate Hpost.
          destruct (serve_head server tx fake_port script
                      (snd (result (serve_one server tx fake_port a reply))))
            as [(_ & Hnil & _) | [tl Htl]];
            rewrite <- Hpost in *; discriminate. }
        injection Hpost as <- Hpost.
        destruct (serve_one_liveness server tx fake_port a reply pre l
                    task kr Hturn) as (Hfail & Hdead & Halive).
        split; [exact Hfail|]. split.
        { intros Hkr. destruct (Hdead Hkr) as [-> Hbreak].
          rewrite Hbreak in *. simpl in Hpost. subst post.
          repeat split. }
        { intros Hkr. destruct (Halive Hkr) as [-> Hgo].
          rewrite Hgo in *. simpl in Hpost. subst post.
          destruct (serve_head server tx fake_port script
                      (snd (result (serve_one server tx fake_port a reply))))
            as [(_ & Hnil & Hwait) | [tl Htl]].
          - left. split; assumption.
          - right. exists tl. exact Htl. }
      * (* the check is in a later turn *)
        revert Hrest.
        destruct (fst (result (serve_one server tx fake_port a reply)));
          intros Hrest;
          [| destruct l; discriminate Hrest | destruct l; discriminate Hrest].
        destruct (IH _ l post task kr Hrest)
          as ((pre' & name & Hfail) & Hdead & Halive).
        split; [|split; assumption].
        exists (trace (serve_one server tx fake_port a reply) ++ pre'), name.
        rewrite Hpre, <- !app_assoc.
        destruct Hfail as [-> | ->]; [left | right]; reflexivity.
Qed.

(** * Properties of the MIG server *)


Lemma reply_bits_simple (bits : Z) :
  MACH_MSGH_BITS_IS_COMPLEX (MACH_MSGH_BITS (MACH_MSGH_BITS_REPLY bits) 0)
  = false.
Proof.
  unfold MACH_MSGH_BITS_IS_COMPLEX, MACH_MSGH_BITS, MACH_MSGH_BITS_REPLY.
  rewrite Z.shiftl_0_l, Z.lor_0_r, <- Z.land_assoc.
  change (Z.land MACH_MSGH_BITS_REMOTE_MASK MACH_MSGH_BITS_COMPLEX) with 0.
  rewrite Z.land_0_r. reflexivity.
Qed.

(** The header [amfid_server] writes. *)
Lemma amfid_server_Head (env : Env) (request : request_t) (reply : reply_t) :
  Head (result (amfid_server env request reply)) =
  {| msgh_bits :=
       MACH_MSGH_BITS (MACH_MSGH_BITS_REPLY (msgh_bits (rq_head request))) 0;
     msgh_remote_port := msgh_remote_port (rq_head request);
     msgh_local_port := MACH_PORT_NULL |}.
Proof.
  unfold amfid_server, result, bind.
  destruct (rq_routine request).
  - destruct (verify_code_directory_mig _ _ _ _ _ _ _ _ _) as [[kr out] t].
    reflexivity.
  - reflexivity.
  - reflexivity.
Qed.


(** C8.  A reply marked complex is fatal: the turn stops at the assertion
    [!MACH_MSGH_BITS_IS_COMPLEX(...)], the loop is aborted, and nothing was
    inserted into, or sent from, amfid.  The replies of [amfid_server], for
    either routine and for an unknown one, are never complex, so that no
    run of the loop with it fails this assertion. *)
Theorem complex_reply_is_fatal_and_never_produced :
  (forall (server : request_t -> reply_t -> IO reply_t) (tx : threadexec_t)
          (fake_port : mach_port_t) (a : relay_answers)
          (script : list relay_answers) (reply : reply_t),
      rcv_kr a = KERN_SUCCESS ->
      MACH_MSGH_BITS_IS_COMPLEX
        (msgh_bits (Head (result (server (rcv_request a) reply)))) = true ->
      let run := serve server tx fake_port (a :: script) reply in
      fst (result run) = Aborted /\
      trace run =
        [SysMachMsgReceive fake_port;
         SysAmfidServer (trace (server (rcv_request a) reply));
         SysAssertFailed
           "!MACH_MSGH_BITS_IS_COMPLEX(reply->Head.msgh_bits)"] /\
      existsb is_remote_call (trace run) = false) /\
  (forall (env : Env) (request : request_t) (reply : reply_t),
      MACH_MSGH_BITS_IS_COMPLEX
        (msgh_bits (Head (result (amfid_server env request reply))))
      = false) /\
  (forall (env : Env) (tx : threadexec_t) (fake_port : mach_port_t)
          (script : list relay_answers) (reply : reply_t),
      ~ In (SysAssertFailed
              "!MACH_MSGH_BITS_IS_COMPLEX(reply->Head.msgh_bits)")
           (trace (serve (amfid_server env) tx fake_port script reply))).
Proof.
  assert (Hsimple : forall env request reply,
             MACH_MSGH_BITS_IS_COMPLEX
               (msgh_bits (Head (result (amfid_server env request reply))))
             = false).
  { intros env request reply. rewrite amfid_server_Head. simpl.
    apply reply_bits_simple. }
  split; [|split; [exact Hsimple|]].
  - intros server tx fake_port a script reply Hrcv Hcx run. subst run.
    destruct (serve_cons server tx fake_port a script reply) as [Htr Hexit].
    destruct (serve_one_complex server tx fake_port a reply Hrcv Hcx)
      as [Habort Hturn].
    cbv zeta in Htr, Hexit. rewrite Htr, Hexit, Habort, Hturn.
    repeat split.
  - intros env tx fake_port script.
    induction script as [|a script IH]; intros reply.
    + intros [].
    + destruct (serve_cons (amfid_server env) tx fake_port a script reply)
        as [Htr _].
      cbv zeta in Htr. rewrite Htr. intros Hin.
      apply in_app_or in Hin as [Hin|Hin].
      * exact (serve_one_simple (amfid_server env) tx fake_port a reply
                 (Hsimple env _ reply) Hin).
      * destruct (fst (result (serve_one (amfid_server env) tx fake_port
                                 a reply)));
          [exact (IH _ Hin) | destruct Hin | destruct Hin].
Qed.

Lemma complex_reply_is_fatal_and_never_produced_witness :
  let a := turn_ok (example_request verify_code_directory "/bin/ls" 0 0x4103)
  in
  rcv_kr a = KERN_SUCCESS /\
  MACH_MSGH_BITS_IS_COMPLEX
    (msgh_bits (Head (result (complex_server (rcv_request a) example_reply))))
  = true /\
  fst (result (serve complex_server example_tx 0x3b03 [a; a] example_reply))
  = Aborted /\
  trace (serve complex_server example_tx 0x3b03 [a; a] example_reply) =
    [SysMachMsgReceive 0x3b03; SysAmfidServer [];
     SysAssertFailed "!MACH_MSGH_BITS_IS_COMPLEX(reply->Head.msgh_bits)"].
Proof.
  intros a.
  assert (Hrcv : rcv_kr a = KERN_SUCCESS) by reflexivity.
  assert (Hcx : MACH_MSGH_BITS_IS_COMPLEX
                  (msgh_bits (Head (result (complex_server (rcv_request a)
                                              example_reply)))) = true)
    by reflexivity.
  split; [exact Hrcv|]. split; [exact Hcx|].
  destruct (proj1 complex_reply_is_fatal_and_never_produced complex_server
              example_tx 0x3b03 a [a] example_reply Hrcv Hcx)
    as (Hexit & Htrace & _).
  split; [exact Hexit | exact Htrace].
Defined.

Lemma liveness_check_only_after_relay_failure_witness :
  trace example_run =
    firstn 18 (trace example_run)
    ++ SysPidForTask 0x2503 KERN_FAILURE :: [SysPrintf "Amfid died"] /\
  KERN_FAILURE <> KERN_SUCCESS /\
  existsb is_remote_call [SysPrintf "Amfid died"] = false /\
  fst (result example_run) = Returned.
Proof.
  assert (Htrace : trace example_run =
                   firstn 18 (trace example_run)
                   ++ SysPidForTask 0x2503 KERN_FAILURE
                      :: [SysPrintf "Amfid died"]) by reflexivity.
  assert (Hkr : KERN_FAILURE <> KERN_SUCCESS) by discriminate.
  split; [exact Htrace|]. split; [exact Hkr|].
  destruct (proj2 (liveness_check_only_after_relay_failure
                     (amfid_server example_env) example_tx 0x3b03
                     example_script example_reply)
              _ _ _ _ Htrace) as (_ & Hdead & _).
  destruct (Hdead Hkr) as (_ & Hremote & Hexit).
  split; [exact Hremote | exact Hexit].
Defined.

(** * Failure of the hash computation *)







(** The overlong [munmap] at work: on a file of 8200 bytes read from
    offset 8192, eight bytes are mapped and 8192 are unmapped, whether the
    hash then fails, as here, or not. *)
Example munmap_overruns_last_page :
  munmap_overruns paged_env "/usr/libexec/big" 8192 = true /\
  trace (compute_cdhash_of_file paged_env "/usr/libexec/big" 8192 []) =
  [SysOpen "/usr/libexec/big"; SysFstat; SysMmap 8 8192; SysComputeCdhash 8;
   SysPrintf "Could not compute cdhash of %s"; SysMunmap 8192; SysClose].
Proof. split; vm_compute; reflexivity. Qed.

(** * More on the handlers *)

(** The calls of [compute_cdhash_of_file], branch by branch. *)
Lemma compute_cdhash_of_file_trace (env : Env) (path : string)
    (file_offset : Z) (buf : list Z) :
  trace (compute_cdhash_of_file env path file_offset buf) =
  SysOpen path ::
  match fs env path with
  | None => [SysPrintf "Could not open %s"]
  | Some fd =>
      SysFstat ::
      (if negb (v_fstat fd) then [SysPrintf "Could not get size of file %s"]
       else if file_size fd <=? file_offset
       then [SysPrintf "Invalid file offset"]
       else
         SysMmap (file_size fd - file_offset) file_offset ::
         (if negb (v_mmap fd (file_size fd - file_offset) file_offset)
          then []
          else
            SysComputeCdhash (file_size fd - file_offset) ::
            match compute_cdhash env
                    (skipn (Z.to_nat file_offset) (v_data fd)) with
            | Some _ => [SysMunmap file_offset]
            | None => [SysPrintf "Could not compute cdhash of %s";
                       SysMunmap file_offset]
            end))
      ++ [SysClose]
  end.
Proof.
  unfold compute_cdhash_of_file, file_size, trace, bind, call, printf, ret.
  simpl.
  destruct (fs env path) as [fd|]; simpl; [|reflexivity].
  destruct (v_fstat fd); simpl; [|reflexivity].
  destruct (_ <=? file_offset); simpl; [reflexivity|].
  destruct (v_mmap fd _ file_offset); simpl; [|reflexivity].
  destruct (compute_cdhash env _); reflexivity.
Qed.

(** X1.  When [compute_cdhash_of_file] succeeds, the file exists, the
    offset is inside it, and the digest it returns is the one the hash
    routine gives for the bytes of the file from the offset to the end (the
    whole file at offset 0), whatever the buffer held before; the length
    passed to the hash routine is the number of those bytes. *)
Theorem compute_cdhash_of_file_digest (env : Env) (path : string)
    (file_offset : Z) (buf : list Z) :
  fst (result (compute_cdhash_of_file env path file_offset buf)) = true ->
  exists fd,
    fs env path = Some fd /\
    file_offset < file_size fd /\
    compute_cdhash env (skipn (Z.to_nat file_offset) (v_data fd))
    = Some (snd (result (compute_cdhash_of_file env path file_offset buf))) /\
    (file_offset = 0 ->
     compute_cdhash env (v_data fd)
     = Some (snd (result (compute_cdhash_of_file env path file_offset buf))))
    /\
    (0 <= file_offset ->
     Z.of_nat (List.length (skipn (Z.to_nat file_offset) (v_data fd)))
     = file_size fd - file_offset /\
     In (SysComputeCdhash
           (Z.of_nat (List.length (skipn (Z.to_nat file_offset) (v_data fd)))))
        (trace (compute_cdhash_of_file env path file_offset buf))).
Proof.
  rewrite compute_cdhash_of_file_result, compute_cdhash_of_file_trace.
  destruct (fs env path) as [fd|]; simpl; [|discriminate].
  destruct (v_fstat fd); simpl; [|discriminate].
  destruct (Z.leb_spec (file_size fd) file_offset) as [Hle|Hlt]; simpl;
    [discriminate|].
  destruct (v_mmap fd _ file_offset); simpl; [|discriminate].
  destruct (compute_cdhash env _) as [d|] eqn:Hd; simpl; [|discriminate].
  intros _. exists fd. split; [reflexivity|]. split; [exact Hlt|].
  split; [exact Hd|]. split.
  - intros ->. exact Hd.
  - intros Hpos.
    assert (Hlen : Z.of_nat (List.length (skipn (Z.to_nat file_offset)
                                            (v_data fd)))
                   = file_size fd - file_offset).
    { rewrite length_skipn. unfold file_size in *. lia. }
    split; [exact Hlen|]. rewrite Hlen. simpl. auto 10.
Qed.

Lemma compute_cdhash_of_file_digest_witness :
  fst (result (compute_cdhash_of_file example_env "/bin/ls" 0 [])) = true /\
  exists fd,
    fs example_env "/bin/ls" = Some fd /\
    compute_cdhash example_env (v_data fd) = Some (repeat 0xc1 20).
Proof.
  assert (Hok : fst (result (compute_cdhash_of_file example_env "/bin/ls"
                               0 [])) = true) by reflexivity.
  split; [exact Hok|].
  destruct (compute_cdhash_of_file_digest example_env "/bin/ls" 0 [] Hok)
    as (fd & Hfd & _ & _ & Hwhole & _).
  exists fd. split; [exact Hfd | exact (Hwhole eq_refl)].
Defined.

(** X2.  As long as its [munmap] is not longer than the mapping,
    [compute_cdhash_of_file] closes what it opened, once and last: if [open]
    fails there is no [fstat], [mmap], hash or [close]; if it succeeds,
    whichever branch is taken, the trace is [open], then calls among which
    there is no [open] and no [close], then one [close]. *)
Theorem compute_cdhash_of_file_closes (env : Env) (path : string)
    (file_offset : Z) (buf : list Z) :
  munmap_overruns env path file_offset = false ->
  let t := trace (compute_cdhash_of_file env path file_offset buf) in
  (fs env path = None ->
   t = [SysOpen path; SysPrintf "Could not open %s"]) /\
  (fs env path <> None ->
   exists body,
     t = SysOpen path :: body ++ [SysClose] /\
     ~ In SysClose body /\
     (forall p, ~ In (SysOpen p) body)).
Proof.
  intros _. cbv zeta. rewrite compute_cdhash_of_file_trace.
  destruct (fs env path) as [fd|]; split; try congruence.
  intros _. eexists (SysFstat :: _). split; [reflexivity|].
    destruct (negb (v_fstat fd));
      [|destruct (file_size fd <=? file_offset);
        [|destruct (negb (v_mmap fd _ file_offset));
          [|destruct (compute_cdhash env _)]]];
      simpl; split; try intros p; intuition discriminate.
Qed.

Lemma compute_cdhash_of_file_closes_witness :
  munmap_overruns example_env "/bin/ls" 0 = false /\
  exists body,
    trace (compute_cdhash_of_file example_env "/bin/ls" 0 [])
    = SysOpen "/bin/ls" :: body ++ [SysClose] /\
    ~ In SysClose body.
Proof.
  assert (Hin : munmap_overruns example_env "/bin/ls" 0 = false)
    by reflexivity.
  assert (Hopen : fs example_env "/bin/ls" <> None) by discriminate.
  split; [exact Hin|].
  destruct (proj2 (compute_cdhash_of_file_closes example_env "/bin/ls" 0 []
                     Hin) Hopen)
    as (body & Htrace & Hclose & _).
  exists body. split; [exact Htrace | exact Hclose].
Defined.

(** X3.  [munmap] is called exactly when [mmap] succeeded, whether or not
    the hash then fails, and its length argument is the file offset, while
    the mapping made by [mmap] has the size of the file minus the offset. *)
Theorem compute_cdhash_of_file_munmap (env : Env) (path : string)
    (file_offset : Z) (buf : list Z) :
  let t := trace (compute_cdhash_of_file env path file_offset buf) in
  let mapped :=
    match fs env path with
    | Some fd =>
        v_fstat fd && negb (file_size fd <=? file_offset)
        && v_mmap fd (file_size fd - file_offset) file_offset
    | None => false
    end in
  (forall len, In (SysMunmap len) t -> mapped = true /\ len = file_offset) /\
  (mapped = true ->
   In (SysMunmap file_offset) t /\
   exists fd, fs env path = Some fd /\
              In (SysMmap (file_size fd - file_offset) file_offset) t).
Proof.
  cbv zeta. rewrite compute_cdhash_of_file_trace.
  destruct (fs env path) as [fd|]; simpl.
  - destruct (v_fstat fd); simpl.
    + destruct (file_size fd <=? file_offset); simpl.
      * split; [intros len H|discriminate]. intuition discriminate.
      * destruct (v_mmap fd _ file_offset); simpl.
        { split.
          - intros len H.
            destruct (compute_cdhash env _); simpl in H;
              intuition (try discriminate; congruence).
          - intros _. split.
            + destruct (compute_cdhash env _); simpl; auto 10.
            + exists fd. split; [reflexivity|]. auto. }
        { split; [intros len H|discriminate]. intuition discriminate. }
    + split; [intros len H|discriminate]. intuition discriminate.
  - split; [intros len H|discriminate]. intuition discriminate.
Qed.

Lemma compute_cdhash_of_file_munmap_witness :
  In (SysMunmap 0) (trace (compute_cdhash_of_file example_env "/bin/ls" 0 []))
  /\ In (SysMmap 8 0)
        (trace (compute_cdhash_of_file example_env "/bin/ls" 0 [])).
Proof.
  destruct (proj2 (compute_cdhash_of_file_munmap example_env "/bin/ls" 0 [])
              eq_refl) as (Hunmap & fd & Hfd & Hmap).
  split; [exact Hunmap|].
  injection Hfd as <-. exact Hmap.
Defined.

(** X4.  [verify_code_directory_mig] returns KERN_SUCCESS or KERN_FAILURE,
    and KERN_SUCCESS exactly when the sender token is the kernel's and the
    hash was computed: no other sender is ever granted anything.  On
    success the digest written is the one [compute_cdhash_of_file]
    returned; on failure every out-parameter is as before; [a13] is never
    written. *)
Theorem verify_code_directory_success_iff (env : Env) (port : mach_port_t)
    (path : string) (file_offset a4 a5 a6 : Z) (out : verify_out)
    (audit : audit_token_t) :
  let r := result (verify_code_directory_mig env port path file_offset
                     a4 a5 a6 out audit) in
  let h := result (compute_cdhash_of_file env path file_offset
                     (cdhash out)) in
  (fst r = KERN_SUCCESS <->
   audit = KERNEL_AUDIT_TOKEN_VALUE /\ fst h = true) /\
  (fst r = KERN_SUCCESS \/ fst r = KERN_FAILURE) /\
  (fst r = KERN_SUCCESS -> cdhash (snd r) = snd h) /\
  (fst r = KERN_FAILURE -> snd r = out) /\
  a13 (snd r) = a13 out.
Proof.
  cbv zeta. rewrite verify_code_directory_mig_result.
  destruct (memcmp_ne audit KERNEL_AUDIT_TOKEN_VALUE) eqn:Hcmp.
  - apply memcmp_ne_true in Hcmp. simpl.
    split; [split; [intros H; discriminate H | intros [H _]; contradiction]|].
    split; [right; reflexivity|].
    split; [intros H; discriminate H|]. split; reflexivity.
  - apply memcmp_ne_false in Hcmp. cbv zeta.
    destruct (fst (result (compute_cdhash_of_file env path file_offset
                             (cdhash out)))) eqn:Hok; simpl.
    + split; [split; [intros _; split; [exact Hcmp|reflexivity]
                     | reflexivity]|].
      split; [left; reflexivity|].
      split; [reflexivity|]. split; [intros H; discriminate H|reflexivity].
    + rewrite (compute_cdhash_of_file_keeps _ _ _ _ Hok), set_cdhash_same.
      split; [split; [intros H; discriminate H
                     | intros [_ H]; discriminate H]|].
      split; [right; reflexivity|].
      split; [intros H; discriminate H|]. split; reflexivity.
Qed.

(** * More on the port swap *)

(** X5.  [replace_amfid_port] succeeds exactly when its three kernel calls
    succeed.  When it fails the special-port slot is as before: the fake
    port is never left registered by a failed call.  When already the first
    call fails, no port was created and only [host_port_main] changed. *)
Theorem replace_amfid_port_all_or_nothing (k : replace_answers) (s : State) :
  let run := replace_amfid_port k s in
  let s' := snd (result run) in
  (fst (result run) = true <->
   r_host_get k = KERN_SUCCESS /\ fst (r_construct k) = KERN_SUCCESS /\
   r_host_set k = KERN_SUCCESS) /\
  (fst (result run) = false ->
   host_amfid_port_slot s' = host_amfid_port_slot s) /\
  (r_host_get k <> KERN_SUCCESS ->
   s' = set_host_port_main s (mach_host_self s) /\
   trace run = [SysHostGetAmfidPort (mach_host_self s);
                SysPrintf "Could not get amfid's service port"]).
Proof.
  cbv zeta.
  unfold replace_amfid_port, host_get_amfid_port, mach_port_construct,
    host_set_amfid_port, result, trace, bind, call, printf, ret.
  destruct k as [g [c n] t]; simpl.
  kr_case g; [kr_case c; [kr_case t|]|]; eqb_facts;
    (split; [split; [intros H; try discriminate H; auto
                    | intros (H1 & H2 & H3); congruence]|]);
    (split; [intros H; try discriminate H; reflexivity|]);
    intros H; try contradiction.
  split; [|reflexivity].
  destruct s; reflexivity.
Qed.

(** X6.  When the fake port was created and its registration fails,
    [replace_amfid_port] fails without releasing it: the new name stays in
    the IPC space and in [fake_amfid_port], no [mach_port_destroy] is
    called, and the slot keeps the original port. *)
Theorem replace_amfid_port_keeps_unregistered_port (k : replace_answers)
    (s : State) :
  r_host_get k = KERN_SUCCESS ->
  fst (r_construct k) = KERN_SUCCESS ->
  r_host_set k <> KERN_SUCCESS ->
  let run := replace_amfid_port k s in
  let s' := snd (result run) in
  fst (result run) = false /\
  fake_amfid_port s' = snd (r_construct k) /\
  In (snd (r_construct k)) (ipc_space s') /\
  host_amfid_port_slot s' = host_amfid_port_slot s /\
  amfid_port s' = host_amfid_port_slot s /\
  (forall name, ~ In (SysPortDestroy name) (trace run)).
Proof.
  cbv zeta.
  unfold replace_amfid_port, host_get_amfid_port, mach_port_construct,
    host_set_amfid_port, result, trace, bind, call, printf, ret.
  destruct k as [g [c n] t]; simpl. intros -> -> Hset.
  change (KERN_SUCCESS =? KERN_SUCCESS) with true. simpl.
  kr_case t; [apply Z.eqb_eq in Hkr; contradiction|].
  repeat split; auto.
  intros H. intuition discriminate.
Qed.

Lemma replace_amfid_port_keeps_unregistered_port_witness :
  let k := {| r_host_get := KERN_SUCCESS;
              r_construct := (KERN_SUCCESS, 0x3b03);
              r_host_set := KERN_NO_ACCESS |} in
  let s' := snd (result (replace_amfid_port k example_state)) in
  fst (result (replace_amfid_port k example_state)) = false /\
  fake_amfid_port s' = 0x3b03 /\
  In 0x3b03 (ipc_space s') /\
  host_amfid_port_slot s' = 0x1403.
Proof.
  intros k s'.
  assert (Hset : r_host_set k <> KERN_SUCCESS) by discriminate.
  destruct (replace_amfid_port_keeps_unregistered_port k example_state
              eq_refl eq_refl Hset) as (H1 & H2 & H3 & H4 & _).
  split; [exact H1|]. split; [exact H2|]. split; [exact H3 | exact H4].
Defined.

(** X7.  Whether or not the original port could be registered again,
    [restore_amfid_port] destroys the fake port and forgets it: its name
    leaves the IPC space, the other names stay, [fake_amfid_port] is
    MACH_PORT_NULL, and [amfid_port], [host_port_main] and [amfid_tx] are
    as before.  When the registration fails the slot is as before and the
    failure is only printed. *)
Theorem restore_amfid_port_always_destroys (kr : kern_return_t) (s : State) :
  fake_amfid_port s <> MACH_PORT_NULL ->
  let run := restore_amfid_port kr s in
  let s' := result run in
  ~ In (fake_amfid_port s) (ipc_space s') /\
  (forall name, name <> fake_amfid_port s ->
                (In name (ipc_space s') <-> In name (ipc_space s))) /\
  fake_amfid_port s' = MACH_PORT_NULL /\
  amfid_port s' = amfid_port s /\
  host_port_main s' = host_port_main s /\
  amfid_tx s' = amfid_tx s /\
  host_amfid_port_slot s' =
    (if kr =? KERN_SUCCESS then amfid_port s else host_amfid_port_slot s) /\
  trace run =
    SysHostSetAmfidPort (host_port_main s) (amfid_port s) ::
    (if kr =? KERN_SUCCESS then []
     else [SysPrintf "Could not restore fake amfid port"])
    ++ [SysPortDestroy (fake_amfid_port s)].
Proof.
  intros Hfake. cbv zeta.
  assert (Hnull : (fake_amfid_port s =? MACH_PORT_NULL) = false)
    by (apply Z.eqb_neq; exact Hfake).
  split; [|split].
  - rewrite restore_amfid_port_result. cbv zeta. rewrite Hnull.
    destruct (kr =? KERN_SUCCESS); simpl;
      rewrite filter_In, Z.eqb_refl; intros [_ H]; discriminate H.
  - intros name Hname. rewrite restore_amfid_port_result. cbv zeta.
    rewrite Hnull.
    assert (Hkeep : negb (name =? fake_amfid_port s) = true)
      by (apply negb_true_iff, Z.eqb_neq; exact Hname).
    destruct (kr =? KERN_SUCCESS); simpl; rewrite filter_In, Hkeep; tauto.
  - rewrite restore_amfid_port_result. cbv zeta. rewrite Hnull.
    unfold restore_amfid_port, host_set_amfid_port, mach_port_destroy,
      trace, bind, call, printf, ret.
    destruct (kr =? KERN_SUCCESS) eqn:Hkr; simpl; rewrite ?Hkr; simpl;
      repeat split.
Qed.

Lemma restore_amfid_port_always_destroys_witness :
  let s1 := snd (result (replace_amfid_port all_replaced example_state)) in
  fake_amfid_port s1 <> MACH_PORT_NULL /\
  ~ In (fake_amfid_port s1)
       (ipc_space (result (restore_amfid_port KERN_NO_ACCESS s1))) /\
  host_amfid_port_slot (result (restore_amfid_port KERN_NO_ACCESS s1))
  = fake_amfid_port s1.
Proof.
  intros s1.
  assert (Hfake : fake_amfid_port s1 <> MACH_PORT_NULL) by discriminate.
  split; [exact Hfake|].
  destruct (restore_amfid_port_always_destroys KERN_NO_ACCESS s1 Hfake)
    as (Hgone & _ & _ & _ & _ & _ & Hslot & _).
  split; [exact Hgone | exact Hslot].
Defined.

(** X8.  [create_amfid_threadexec] succeeds exactly when the process list
    could be read, exactly one process runs [AMFID_PATH], the port could be
    fetched and [threadexec_init] gave a context.  It never writes the
    special-port slot, and it calls [threadexec_init] only after the three
    first conditions held. *)
Theorem create_amfid_threadexec_succeeds_iff (k : create_answers)
    (s : State) :
  let run := create_amfid_threadexec k s in
  let count := List.length (find_by_path (procs s) AMFID_PATH) in
  (fst (result run) = true <->
   c_proc_list k = true /\ count = 1%nat /\
   c_host_get k = KERN_SUCCESS /\ c_threadexec_init k = true) /\
  host_amfid_port_slot (snd (result run)) = host_amfid_port_slot s /\
  (forall task, In (SysThreadexecInit task) (trace run) ->
   c_proc_list k = true /\ count = 1%nat /\ c_host_get k = KERN_SUCCESS /\
   task = host_amfid_port_slot s) /\
  (fst (result run) = false -> c_threadexec_init k = true ->
   amfid_tx (snd (result run)) = amfid_tx s).
Proof.
  cbv zeta.
  unfold create_amfid_threadexec, proc_list_pids_with_path,
    host_get_amfid_port, threadexec_init, result, trace, bind, call, printf,
    ret.
  destruct k as [l g i]; simpl.
  destruct l; simpl.
  - destruct (find_by_path (procs s) AMFID_PATH) as [|p [|q found]]; simpl.
    + repeat split; try discriminate; try tauto;
        intros; intuition discriminate.
    + kr_case g; [destruct i; simpl|]; eqb_facts;
        repeat split; try discriminate; try tauto; try congruence;
        intros; intuition (try discriminate; congruence).
    + destruct (1 <? _) eqn:Hcount; simpl.
      * repeat split; try discriminate; try tauto;
          intros; intuition discriminate.
      * apply Z.ltb_ge in Hcount. lia.
  - repeat split; try discriminate; try tauto;
      intros; intuition discriminate.
Qed.

(** * More on the relay loop *)

(** X9.  When the receive fails the loop returns at once: the server is
    not run, nothing is relayed, the reply buffer is as it was, and the
    answers prepared for later turns are never used. *)
Theorem receive_failure_ends_loop
    (server : request_t -> reply_t -> IO reply_t) (tx : threadexec_t)
    (fake_port : mach_port_t) (a : relay_answers)
    (script : list relay_answers) (reply : reply_t) :
  rcv_kr a <> KERN_SUCCESS ->
  serve server tx fake_port (a :: script) reply =
  ((Returned, reply),
   [SysMachMsgReceive fake_port;
    SysPrintf "Failed to receive message on fake amfid port: %d"]).
Proof.
  intros Hrcv. apply Z.eqb_neq in Hrcv.
  simpl serve. unfold serve_one, bind, call, printf, ret.
  rewrite Hrcv. reflexivity.
Qed.

Lemma receive_failure_ends_loop_witness :
  fst (result (serve (amfid_server example_env) example_tx 0x3b03
                 ({| rcv_kr := KERN_FAILURE;
                     rcv_request := example_request verify_code_directory
                                      "/bin/ls" 0 0x4103;
                     port_insert := Some 0x7a03; call_cv := true;
                     pid_for_task := KERN_SUCCESS |} :: example_script)
                 example_reply)) = Returned.
Proof.
  assert (Hrcv : KERN_FAILURE <> KERN_SUCCESS) by discriminate.
  rewrite (receive_failure_ends_loop (amfid_server example_env) example_tx
             0x3b03
             {| rcv_kr := KERN_FAILURE;
                rcv_request := example_request verify_code_directory
                                 "/bin/ls" 0 0x4103;
                port_insert := Some 0x7a03; call_cv := true;
                pid_for_task := KERN_SUCCESS |}
             example_script example_reply Hrcv).
  reflexivity.
Defined.

(** X10.  A turn is aborted by an assertion exactly when a request was
    received and the reply the server built is complex or does not carry
    its reply port as a send-once right; then nothing was inserted into,
    sent from or released in amfid, and [pid_for_task] was not called. *)
Theorem turn_aborts_iff (server : request_t -> reply_t -> IO reply_t)
    (tx : threadexec_t) (fake_port : mach_port_t) (a : relay_answers)
    (reply : reply_t) :
  let turn := serve_one server tx fake_port a reply in
  let r := result (server (rcv_request a) reply) in
  (fst (result turn) = Abort <->
   rcv_kr a = KERN_SUCCESS /\
   (MACH_MSGH_BITS_IS_COMPLEX (msgh_bits (Head r)) = true \/
    MACH_MSGH_BITS_REMOTE (msgh_bits (Head r))
    <> MACH_MSG_TYPE_MOVE_SEND_ONCE)) /\
  (fst (result turn) = Abort ->
   existsb is_remote_call (trace turn) = false /\
   existsb is_liveness_check (trace turn) = false).
Proof.
  cbv zeta. turn_cases server a reply; eqb_facts;
    (split; [split; [intros H; try discriminate H
                    | intros [H1 [H2|H2]]; try discriminate; try congruence]
            | intros H; try discriminate H; split; reflexivity]);
    auto.
Qed.

(** X11.  The request is destroyed ([mach_msg_destroy], after its reply
    port was set to MACH_PORT_NULL) exactly when the reply of the server is
    simple and its code is neither KERN_SUCCESS nor MIG_NO_REPLY. *)
Theorem request_destroyed_iff (server : request_t -> reply_t -> IO reply_t)
    (tx : threadexec_t) (fake_port : mach_port_t) (a : relay_answers)
    (reply : reply_t) (port : mach_port_t) :
  let turn := serve_one server tx fake_port a reply in
  let r := result (server (rcv_request a) reply) in
  In (SysMachMsgDestroy port) (trace turn) <->
  port = MACH_PORT_NULL /\
  rcv_kr a = KERN_SUCCESS /\
  MACH_MSGH_BITS_IS_COMPLEX (msgh_bits (Head r)) = false /\
  RetCode r <> MIG_NO_REPLY /\
  RetCode r <> KERN_SUCCESS.
Proof.
  cbv zeta. turn_cases server a reply; eqb_facts;
    (split; [intros H; simpl in H; intuition (try discriminate; congruence)
            | intros (-> & H1 & H2 & H3 & H4);
              try congruence; try discriminate; simpl; auto 10]).
Qed.



(** A turn where the receive, the insertion and the send succeed, and the
    reply is simple with a send-once reply port: one receive, one reply
    sent, and the loop goes on. *)
Lemma serve_one_smooth (server : request_t -> reply_t -> IO reply_t)
    (tx : threadexec_t) (fake_port : mach_port_t) (a : relay_answers)
    (reply : reply_t) :
  rcv_kr a = KERN_SUCCESS ->
  is_some (port_insert a) = true ->
  call_cv a = true ->
  MACH_MSGH_BITS_IS_COMPLEX
    (msgh_bits (Head (result (server (rcv_request a) reply)))) = false ->
  MACH_MSGH_BITS_REMOTE
    (msgh_bits (Head (result (server (rcv_request a) reply))))
  = MACH_MSG_TYPE_MOVE_SEND_ONCE ->
  let turn := serve_one server tx fake_port a reply in
  fst (result turn) = Continue /\
  List.length (filter is_receive (trace turn)) = 1%nat /\
  List.length (filter relay_done (trace turn)) = 1%nat /\
  existsb is_liveness_check (trace turn) = false.
Proof.
  cbv zeta. unfold serve_one, check_amfid, result, trace, bind, call, printf,
    ret.
  destruct a as [rk rq ins cv pk]; simpl.
  destruct (server rq reply) as [r calls]; simpl.
  intros -> Hins -> Hcx Hso.
  destruct ins as [remote|]; [|discriminate Hins].
  change (KERN_SUCCESS =? KERN_SUCCESS) with true. simpl.
  rewrite Hcx. simpl.
  destruct (RetCode r =? MIG_NO_REPLY); simpl; rewrite ?Hcx, ?Hso; simpl;
    [|destruct (RetCode r =? KERN_SUCCESS); simpl; rewrite ?Hcx, ?Hso; simpl];
    change (MACH_MSG_TYPE_MOVE_SEND_ONCE =? MACH_MSG_TYPE_MOVE_SEND_ONCE)
      with true; simpl; repeat split.
Qed.

(** X13.  The loop does not end by itself: as long as every receive, every
    insertion and every send succeeds and every reply is simple with a
    send-once reply port, it is found waiting for the next request, having
    received and relayed once per turn and never called [pid_for_task]. *)
Theorem smooth_loop_keeps_serving
    (server : request_t -> reply_t -> IO reply_t) (tx : threadexec_t)
    (fake_port : mach_port_t) (script : list relay_answers)
    (reply : reply_t) :
  (forall a r, In a script ->
     rcv_kr a = KERN_SUCCESS /\
     is_some (port_insert a) = true /\
     call_cv a = true /\
     MACH_MSGH_BITS_IS_COMPLEX
       (msgh_bits (Head (result (server (rcv_request a) r)))) = false /\
     MACH_MSGH_BITS_REMOTE
       (msgh_bits (Head (result (server (rcv_request a) r))))
     = MACH_MSG_TYPE_MOVE_SEND_ONCE) ->
  let run := serve server tx fake_port script reply in
  fst (result run) = Receiving /\
  List.length (filter is_receive (trace run)) = List.length script /\
  List.length (filter relay_done (trace run)) = List.length script /\
  existsb is_liveness_check (trace run) = false.
Proof.
  cbv zeta. revert reply.
  induction script as [|a script IH]; intros reply Hall.
  - repeat split.
  - destruct (Hall a reply (or_introl eq_refl))
      as (Hrcv & Hins & Hcv & Hcx & Hso).
    destruct (serve_one_smooth server tx fake_port a reply Hrcv Hins Hcv
                Hcx Hso) as (Hgo & Hone & Hsent & Hcheck).
    destruct (serve_cons server tx fake_port a script reply) as [Htr Hexit].
    cbv zeta in Htr, Hexit. rewrite Htr, Hexit, Hgo.
    destruct (IH (snd (result (serve_one server tx fake_port a reply))))
      as (Hwait & Hrcvs & Hsents & Hchecks).
    { intros b r Hb. apply Hall. right. exact Hb. }
    rewrite !filter_app, !length_app, existsb_app, Hone, Hsent, Hcheck,
      Hrcvs, Hsents, Hchecks.
    repeat split; assumption.
Qed.

Lemma smooth_loop_keeps_serving_witness :
  let run := serve (amfid_server example_env) example_tx 0x3b03 happy_script
               example_reply in
  fst (result run) = Receiving /\
  List.length (filter is_receive (trace run)) = 2%nat /\
  List.length (filter relay_done (trace run)) = 2%nat.
Proof.
  assert (Hall : forall a r, In a happy_script ->
            rcv_kr a = KERN_SUCCESS /\
            is_some (port_insert a) = true /\
            call_cv a = true /\
            MACH_MSGH_BITS_IS_COMPLEX
              (msgh_bits (Head (result (amfid_server example_env
                                          (rcv_request a) r)))) = false /\
            MACH_MSGH_BITS_REMOTE
              (msgh_bits (Head (result (amfid_server example_env
                                          (rcv_request a) r))))
            = MACH_MSG_TYPE_MOVE_SEND_ONCE).
  { intros a r [<-|[<-|[]]]; repeat split. }
  destruct (smooth_loop_keeps_serving (amfid_server example_env) example_tx
              0x3b03 happy_script example_reply Hall)
    as (Hwait & Hrcvs & Hsents & _).
  split; [exact Hwait|]. split; [exact Hrcvs | exact Hsents].
Defined.

(** * The entry point *)

(** The loop of [install_signal_handler], from any index on. *)
Lemma install_from_spec (answers : signal -> Z) (todo handled : list signal) :
  install_from answers todo handled =
  (handled ++ filter (fun signum => answers signum =? 0) todo,
   flat_map (fun signum =>
               EvSigaction signum ::
               (if answers signum =? 0 then []
                else [EvCall (SysPrintf "Failed to register for signal %d")]))
            todo).
Proof.
  revert handled. induction todo as [|signum todo IH]; intros handled.
  - simpl. unfold ret_main. rewrite app_nil_r. reflexivity.
  - simpl. unfold bind_main, sigaction, lift, ret_main, printf, call.
    rewrite IH.
    destruct (answers signum =? 0); simpl; rewrite <- ?app_assoc;
      reflexivity.
Qed.

(** X14.  [install_signal_handler] tries [sigaction] on each of the twenty
    signals of its array, in order, whether or not earlier ones failed; it
    prints once per failure; and the signals that end up running
    [signal_handler] are those of the array for which [sigaction] returned
    0. *)
Theorem install_signal_handler_tries_all (answers : signal -> Z) :
  let run := install_signal_handler answers in
  (forall signum,
      In signum (fst run) <-> In signum signals /\ answers signum = 0) /\
  filter (fun e => match e with EvSigaction _ => true | _ => false end)
         (snd run)
  = map EvSigaction signals /\
  List.length (filter (fun e => match e with
                                | EvCall (SysPrintf _) => true
                                | _ => false
                                end) (snd run))
  = List.length (filter (fun signum => negb (answers signum =? 0)) signals).
Proof.
  cbv zeta. unfold install_signal_handler. rewrite install_from_spec.
  cbn [fst snd app].
  split; [|split].
  - intros signum. rewrite filter_In, Z.eqb_eq. tauto.
  - induction signals as [|signum l IH]; [reflexivity|].
    cbn [flat_map map]. rewrite filter_app, IH.
    destruct (answers signum =? 0); reflexivity.
  - induction signals as [|signum l IH]; [reflexivity|].
    cbn [flat_map filter]. rewrite filter_app, length_app, IH.
    destruct (answers signum =? 0); reflexivity.
Qed.

(** The entry point, path by path. *)
Lemma fuckup_amfid_paths (server : request_t -> reply_t -> IO reply_t)
    (k : main_answers) (s : State) :
  let c := create_amfid_threadexec (m_create k) s in
  let r := replace_amfid_port (m_replace k) (snd (result c)) in
  let l := run_amfid_server server (snd (result r)) (m_reply k)
             (m_script k) in
  let x := restore_amfid_port (m_restore k) (snd (result r)) in
  let start :=
    EvCall (SysPrintf "\nStarting Amfid fuckery...\n")
    :: EvCall (SysPrintf "amfidupe: pid=%d, uid=%d\n")
    :: snd (install_signal_handler (m_sigaction k))
    ++ map EvCall (trace c) in
  let bye := EvCall (SysPrintf "amfidupe: exit") in
  fuckup_amfid server k s =
  if negb (fst (result c)) then
    ((Exited 1, snd (result c)), start ++ [bye])
  else if negb (fst (result r)) then
    ((Exited 1, snd (result r)),
     start ++ map EvCall (trace r)
     ++ [EvThreadexecDeinit (threadexec_task (amfid_tx (snd (result r))));
         bye])
  else
    match fst (result l) with
    | Returned =>
        ((Exited 0, result x),
         start ++ map EvCall (trace r) ++ map EvCall (trace l)
         ++ map EvCall (trace x)
         ++ [EvThreadexecDeinit (threadexec_task (amfid_tx (result x)));
             bye])
    | Aborted =>
        ((Crashed, snd (result r)),
         start ++ map EvCall (trace r) ++ map EvCall (trace l))
    | Receiving =>
        ((Serving, snd (result r)),
         start ++ map EvCall (trace r) ++ map EvCall (trace l))
    end.
Proof.
  cbv zeta. unfold fuckup_amfid, bind_main, lift, ret_main, threadexec_deinit,
    result, trace.
  destruct (install_signal_handler (m_sigaction k)) as [handled ti].
  destruct (create_amfid_threadexec (m_create k) s) as [[okc sc] tc].
  cbn [fst snd printf call map app].
  destruct okc; cbn [negb fst snd];
    [|rewrite <- !app_assoc; reflexivity].
  destruct (replace_amfid_port (m_replace k) sc) as [[okr sr] tr].
  cbn [fst snd].
  destruct okr; cbn [negb fst snd map app];
    [|rewrite ?app_nil_r, <- ?app_assoc; reflexivity].
  destruct (run_amfid_server server sr (m_reply k) (m_script k))
    as [[e rb] tl].
  cbn [fst snd].
  destruct e; cbn [fst snd map app].
  - destruct (restore_amfid_port (m_restore k) sr) as [sx tx].
    cbn [fst snd map app]. rewrite ?app_nil_r, <- ?app_assoc. reflexivity.
  - rewrite ?app_nil_r, <- ?app_assoc. reflexivity.
  - rewrite ?app_nil_r, <- ?app_assoc. reflexivity.
Qed.

Lemma create_amfid_threadexec_keeps_slot (k : create_answers) (s : State) :
  host_amfid_port_slot (snd (result (create_amfid_threadexec k s)))
  = host_amfid_port_slot s.
Proof.
  unfold create_amfid_threadexec, proc_list_pids_with_path,
    host_get_amfid_port, threadexec_init, result, bind, call, printf, ret.
  destruct k as [l g i]; simpl.
  destruct l; simpl; [|reflexivity].
  destruct (Z.of_nat _ =? 0); simpl; [reflexivity|].
  destruct (1 <? Z.of_nat _); simpl; [reflexivity|].
  kr_case g; [|reflexivity]. destruct i; reflexivity.
Qed.

Lemma replace_amfid_port_false_keeps_slot (k : replace_answers) (s : State) :
  fst (result (replace_amfid_port k s)) = false ->
  host_amfid_port_slot (snd (result (replace_amfid_port k s)))
  = host_amfid_port_slot s.
Proof.
  unfold replace_amfid_port, host_get_amfid_port, mach_port_construct,
    host_set_amfid_port, result, bind, call, printf, ret.
  destruct k as [g [c n] t]; simpl.
  kr_case g; [kr_case c; [kr_case t|]|];
    intros H; try discriminate H; reflexivity.
Qed.

(** Events that belong to the loop or to the tear-down. *)
Ltac quiet_event e :=
  exact (match e with
         | EvCall (SysMachMsgReceive _) => False
         | EvCall (SysPortDestroy _) => False
         | EvThreadexecDeinit _ => False
         | _ => True
         end).

(** Before the loop, the entry point neither receives, nor destroys a
    port, nor releases the context. *)
Lemma set_up_is_quiet (k : main_answers) (s : State) (e : Event) :
  In e (EvCall (SysPrintf "\nStarting Amfid fuckery...\n")
        :: EvCall (SysPrintf "amfidupe: pid=%d, uid=%d\n")
        :: snd (install_signal_handler (m_sigaction k))
        ++ map EvCall (trace (create_amfid_threadexec (m_create k) s))) ->
  ltac:(quiet_event e).
Proof.
  intros [<-|[<-|Hin]]; [exact I | exact I |].
  apply in_app_or in Hin as [Hin|Hin].
  - unfold install_signal_handler in Hin. rewrite install_from_spec in Hin.
    cbn [snd] in Hin. apply in_flat_map in Hin as (signum & _ & Hin).
    destruct (m_sigaction k signum =? 0); simpl in Hin;
      intuition (subst; exact I).
  - apply in_map_iff in Hin as (c & <- & Hin). revert Hin.
    unfold create_amfid_threadexec, proc_list_pids_with_path,
      host_get_amfid_port, threadexec_init, trace, bind, call, printf, ret.
    destruct (m_create k) as [l g i]; simpl.
    destruct l; simpl;
      [destruct (Z.of_nat _ =? 0); simpl;
       [|destruct (1 <? Z.of_nat _); simpl;
         [|kr_case g; [destruct i; simpl|]]]|];
      intros Hin; intuition (subst; exact I).
Qed.

Lemma replace_is_quiet (k : replace_answers) (s : State) (e : Event) :
  In e (map EvCall (trace (replace_amfid_port k s))) ->
  ltac:(quiet_event e).
Proof.
  intros Hin. apply in_map_iff in Hin as (c & <- & Hin). revert Hin.
  unfold replace_amfid_port, host_get_amfid_port, mach_port_construct,
    host_set_amfid_port, trace, bind, call, printf, ret.
  destruct k as [g [c' n] t]; simpl.
  kr_case g; [kr_case c'; [kr_case t|]|];
    intros Hin; intuition (subst; exact I).
Qed.

(** X15.  When the set-up fails (amfid's context cannot be created, or the
    port cannot be replaced) the entry point returns 1 with the
    special-port slot as it found it, without having received any message
    or destroyed any port; it releases the context exactly when the context
    had been created. *)
Theorem setup_failure_exits_clean
    (server : request_t -> reply_t -> IO reply_t) (k : main_answers)
    (s : State) :
  let c := create_amfid_threadexec (m_create k) s in
  let r := replace_amfid_port (m_replace k) (snd (result c)) in
  let run := fuckup_amfid server k s in
  fst (result c) = false \/ fst (result r) = false ->
  fst (fst run) = Exited 1 /\
  host_amfid_port_slot (snd (fst run)) = host_amfid_port_slot s /\
  (forall port, ~ In (EvCall (SysMachMsgReceive port)) (snd run)) /\
  (forall name, ~ In (EvCall (SysPortDestroy name)) (snd run)) /\
  (forall task, In (EvThreadexecDeinit task) (snd run) <->
                fst (result c) = true /\
                task = threadexec_task (amfid_tx (snd (result r)))).
Proof.
  cbv zeta. intros Hfail.
  pose proof (fuckup_amfid_paths server k s) as Hpaths.
  cbv zeta in Hpaths. rewrite Hpaths. clear Hpaths.
  destruct (fst (result (create_amfid_threadexec (m_create k) s))) eqn:Hc;
    cbn [negb].
  - destruct Hfail as [Hfail|Hfail]; [discriminate Hfail|].
    rewrite Hfail. cbn [negb fst snd].
    split; [reflexivity|]. split.
    { rewrite (replace_amfid_port_false_keeps_slot _ _ Hfail).
      apply create_amfid_threadexec_keeps_slot. }
    split; [|split].
    + intros port Hin.
      apply in_app_or in Hin as [Hin|Hin];
        [exact (set_up_is_quiet k s _ Hin)|].
      apply in_app_or in Hin as [Hin|Hin];
        [exact (replace_is_quiet _ _ _ Hin)|].
      simpl in Hin. intuition discriminate.
    + intros name Hin.
      apply in_app_or in Hin as [Hin|Hin];
        [exact (set_up_is_quiet k s _ Hin)|].
      apply in_app_or in Hin as [Hin|Hin];
        [exact (replace_is_quiet _ _ _ Hin)|].
      simpl in Hin. intuition discriminate.
    + intros task. split.
      * intros Hin.
        apply in_app_or in Hin as [Hin|Hin];
          [destruct (set_up_is_quiet k s _ Hin)|].
        apply in_app_or in Hin as [Hin|Hin];
          [destruct (replace_is_quiet _ _ _ Hin)|].
        simpl in Hin. destruct Hin as [[= <-]|[Hin|[]]];
          [split; reflexivity | discriminate Hin].
      * intros [_ ->]. apply in_or_app. right. apply in_or_app. right.
        left. reflexivity.
  - cbn [fst snd].
    split; [reflexivity|]. split;
      [apply create_amfid_threadexec_keeps_slot|].
    split; [|split].
    + intros port Hin.
      apply in_app_or in Hin as [Hin|Hin];
        [exact (set_up_is_quiet k s _ Hin)|].
      simpl in Hin. intuition discriminate.
    + intros name Hin.
      apply in_app_or in Hin as [Hin|Hin];
        [exact (set_up_is_quiet k s _ Hin)|].
      simpl in Hin. intuition discriminate.
    + intros task. split.
      * intros Hin.
        apply in_app_or in Hin as [Hin|Hin];
          [destruct (set_up_is_quiet k s _ Hin)|].
        simpl in Hin. intuition discriminate.
      * intros [H _]. discriminate H.
Qed.

Lemma setup_failure_exits_clean_witness :
  let run := fuckup_amfid (amfid_server example_env) no_amfid_main
               example_state in
  fst (result (create_amfid_threadexec (m_create no_amfid_main)
                 example_state)) = false /\
  fst (fst run) = Exited 1 /\
  host_amfid_port_slot (snd (fst run)) = 0x1403.
Proof.
  intros run.
  assert (Hc : fst (result (create_amfid_threadexec (m_create no_amfid_main)
                              example_state)) = false) by reflexivity.
  split; [exact Hc|].
  destruct (setup_failure_exits_clean (amfid_server example_env)
              no_amfid_main example_state (or_introl Hc))
    as (Hexit & Hslot & _).
  split; [exact Hexit | exact Hslot].
Defined.

(** X16.  The entry point returns 0 exactly when the set-up succeeded and
    the loop returned.  Then [restore_amfid_port] has run, once, after the
    loop and before the context is released: [fake_amfid_port] is
    MACH_PORT_NULL, and if the registration of [restore_amfid_port]
    succeeded the special-port slot holds the port it held when the
    program started. *)
Theorem exit_zero_means_restored
    (server : request_t -> reply_t -> IO reply_t) (k : main_answers)
    (s : State) :
  let c := create_amfid_threadexec (m_create k) s in
  let r := replace_amfid_port (m_replace k) (snd (result c)) in
  let l := run_amfid_server server (snd (result r)) (m_reply k)
             (m_script k) in
  let x := restore_amfid_port (m_restore k) (snd (result r)) in
  let run := fuckup_amfid server k s in
  (fst (fst run) = Exited 0 <->
   fst (result c) = true /\ fst (result r) = true /\
   fst (result l) = Returned) /\
  (fst (fst run) = Exited 0 ->
   fake_amfid_port (snd (fst run)) = MACH_PORT_NULL /\
   (m_restore k = KERN_SUCCESS ->
    host_amfid_port_slot (snd (fst run)) = host_amfid_port_slot s) /\
   exists before,
     snd run =
       before ++ map EvCall (trace l) ++ map EvCall (trace x)
       ++ [EvThreadexecDeinit (threadexec_task (amfid_tx (snd (fst run))));
           EvCall (SysPrintf "amfidupe: exit")] /\
     forall name, ~ In (EvCall (SysPortDestroy name)) before).
Proof.
  cbv zeta.
  pose proof (fuckup_amfid_paths server k s) as Hpaths.
  cbv zeta in Hpaths. rewrite Hpaths. clear Hpaths.
  destruct (fst (result (create_amfid_threadexec (m_create k) s))) eqn:Hc;
    cbn [negb];
    [|split; [split; [intros H; discriminate H
                     | intros (H & _); discriminate H]
             | intros H; discriminate H]].
  destruct (fst (result (replace_amfid_port (m_replace k) _))) eqn:Hr;
    cbn [negb];
    [|split; [split; [intros H; discriminate H
                     | intros (_ & H & _); discriminate H]
             | intros H; discriminate H]].
  destruct (fst (result (run_amfid_server server _ _ _))) eqn:Hl;
    cbn [fst snd];
    [| split; [split; [intros H; discriminate H
                      | intros (_ & _ & H); discriminate H]
              | intros H; discriminate H]
     | split; [split; [intros H; discriminate H
                      | intros (_ & _ & H); discriminate H]
              | intros H; discriminate H]].
  split; [split; [intros _; repeat split | reflexivity]|].
  intros _.
  destruct (replace_amfid_port_true _ _ Hr) as (Hsaved & _ & _ & _).
  cbv zeta in Hsaved.
  rewrite create_amfid_threadexec_keeps_slot in Hsaved.
  split; [rewrite restore_amfid_port_result; reflexivity|].
  split.
  - intros Hkr. rewrite restore_amfid_port_result, Hkr. cbv zeta.
    change (KERN_SUCCESS =? KERN_SUCCESS) with true. cbv iota.
    destruct (fake_amfid_port _ =? MACH_PORT_NULL); exact Hsaved.
  - eexists. rewrite app_assoc. split; [reflexivity|].
    intros name Hin.
    apply in_app_or in Hin as [Hin|Hin];
      [exact (set_up_is_quiet k s _ Hin) | exact (replace_is_quiet _ _ _ Hin)].
Qed.

Lemma exit_zero_means_restored_witness :
  let run := fuckup_amfid (amfid_server example_env) example_main
               example_state in
  fst (fst run) = Exited 0 /\
  fake_amfid_port (snd (fst run)) = MACH_PORT_NULL /\
  host_amfid_port_slot (snd (fst run)) = 0x1403.
Proof.
  intros run.
  assert (Hexit : fst (fst run) = Exited 0) by reflexivity.
  split; [exact Hexit|].
  destruct (proj2 (exit_zero_means_restored (amfid_server example_env)
                     example_main example_state) Hexit)
    as (Hfake & Hslot & _).
  split; [exact Hfake | exact (Hslot eq_refl)].
Defined.

(** The loop destroys no port of this task. *)
Lemma serve_destroys_nothing (server : request_t -> reply_t -> IO reply_t)
    (tx : threadexec_t) (fake_port : mach_port_t)
    (script : list relay_answers) (reply : reply_t) (name : mach_port_t) :
  ~ In (SysPortDestroy name) (trace (serve server tx fake_port script reply)).
Proof.
  revert reply. induction script as [|a script IH]; intros reply Hin.
  - destruct Hin.
  - destruct (serve_cons server tx fake_port a script reply) as [Htr _].
    cbv zeta in Htr. rewrite Htr in Hin. clear Htr.
    apply in_app_or in Hin as [Hin|Hin].
    + revert Hin. turn_cases server a reply; intros Hin; simpl in Hin;
        intuition discriminate.
    + destruct (fst (result (serve_one server tx fake_port a reply)));
        [exact (IH _ Hin) | destruct Hin | destruct Hin].
Qed.

(** X17.  While the entry point is in the loop, waiting for a request, the
    swap is in place: the special-port slot holds the fake port, which is
    alive in the IPC space, [amfid_port] holds the port the slot held when
    the program started, and nothing was torn down yet (no port destroyed,
    the context not released). *)
Theorem serving_keeps_swap_in_place
    (server : request_t -> reply_t -> IO reply_t) (k : main_answers)
    (s : State) :
  let run := fuckup_amfid server k s in
  fst (fst run) = Serving ->
  host_amfid_port_slot (snd (fst run)) = fake_amfid_port (snd (fst run)) /\
  In (fake_amfid_port (snd (fst run))) (ipc_space (snd (fst run))) /\
  amfid_port (snd (fst run)) = host_amfid_port_slot s /\
  (forall name, ~ In (EvCall (SysPortDestroy name)) (snd run)) /\
  (forall task, ~ In (EvThreadexecDeinit task) (snd run)) /\
  fst (result (run_amfid_server server (snd (fst run)) (m_reply k)
                 (m_script k))) = Receiving.
Proof.
  cbv zeta.
  pose proof (fuckup_amfid_paths server k s) as Hpaths.
  cbv zeta in Hpaths. rewrite Hpaths. clear Hpaths.
  destruct (fst (result (create_amfid_threadexec (m_create k) s))) eqn:Hc;
    cbn [negb]; [|intros H; discriminate H].
  destruct (fst (result (replace_amfid_port (m_replace k) _))) eqn:Hr;
    cbn [negb]; [|intros H; discriminate H].
  destruct (fst (result (run_amfid_server server _ _ _))) eqn:Hl;
    cbn [fst snd]; intros H; try discriminate H. clear H.
  destruct (replace_amfid_port_true _ _ Hr) as (Hsaved & Hnew & Hslot & _).
  cbv zeta in Hsaved, Hnew, Hslot.
  rewrite create_amfid_threadexec_keeps_slot in Hsaved.
  split; [exact Hslot|]. split.
  { revert Hr. clear.
    unfold replace_amfid_port, host_get_amfid_port, mach_port_construct,
      host_set_amfid_port, result, bind, call, printf, ret.
    destruct (m_replace k) as [g [c n] t]; simpl.
    kr_case g; [kr_case c; [kr_case t|]|];
      intros H; try discriminate H. left. reflexivity. }
  split; [exact Hsaved|]. split; [|split; [|exact Hl]].
  - intros name Hin.
    apply in_app_or in Hin as [Hin|Hin];
      [exact (set_up_is_quiet k s _ Hin)|].
    apply in_app_or in Hin as [Hin|Hin];
      [exact (replace_is_quiet _ _ _ Hin)|].
    apply in_map_iff in Hin as (c & [= ->] & Hin).
    exact (serve_destroys_nothing server _ _ _ _ name Hin).
  - intros task Hin.
    apply in_app_or in Hin as [Hin|Hin];
      [exact (set_up_is_quiet k s _ Hin)|].
    apply in_app_or in Hin as [Hin|Hin];
      [exact (replace_is_quiet _ _ _ Hin)|].
    apply in_map_iff in Hin as (c & Heq & _). discriminate Heq.
Qed.

Lemma serving_keeps_swap_in_place_witness :
  let run := fuckup_amfid (amfid_server example_env) serving_main
               example_state in
  fst (fst run) = Serving /\
  host_amfid_port_slot (snd (fst run)) = 0x3b03 /\
  amfid_port (snd (fst run)) = 0x1403.
Proof.
  intros run.
  assert (Hserving : fst (fst run) = Serving) by reflexivity.
  split; [exact Hserving|].
  destruct (serving_keeps_swap_in_place (amfid_server example_env)
              serving_main example_state Hserving)
    as (Hslot & _ & Hsaved & _).
  split; [exact Hslot | exact Hsaved].
Defined.

(** * Ports across a turn and across a swap *)


Lemma filter_none (name : mach_port_t) (l : list mach_port_t) :
  ~ In name l -> filter (fun n => negb (n =? name)) l = l.
Proof.
  induction l as [|x l IH]; intros Hnot; [reflexivity|].
  simpl. destruct (Z.eqb_spec x name) as [->|Hne].
  - exfalso. apply Hnot. left. reflexivity.
  - simpl. rewrite IH; [reflexivity|].
    intros Hin. apply Hnot. right. exact Hin.
Qed.

(** X19.  A swap followed by [restore_amfid_port] leaves no port behind but
    the send right to the original port: when the kernel gave the fake port
    a fresh name, after [replace_amfid_port] succeeded and
    [restore_amfid_port] ran (its registration successful or not) the IPC
    space is the one before the swap plus the name of the port that was
    registered. *)
Theorem swap_and_restore_leave_one_right (k : replace_answers) (s : State)
    (kr : kern_return_t) :
  fst (result (replace_amfid_port k s)) = true ->
  snd (r_construct k) <> MACH_PORT_NULL ->
  snd (r_construct k) <> host_amfid_port_slot s ->
  ~ In (snd (r_construct k)) (ipc_space s) ->
  let s1 := snd (result (replace_amfid_port k s)) in
  let s2 := result (restore_amfid_port kr s1) in
  ipc_space s1
  = snd (r_construct k) :: host_amfid_port_slot s :: ipc_space s /\
  ipc_space s2 = host_amfid_port_slot s :: ipc_space s.
Proof.
  intros Hok Hnull Hslot Hfresh. cbv zeta.
  rewrite restore_amfid_port_result. cbv zeta.
  revert Hok Hnull Hslot Hfresh.
  unfold replace_amfid_port, host_get_amfid_port, mach_port_construct,
    host_set_amfid_port, result, bind, call, printf, ret.
  destruct k as [g [c n] t]; simpl.
  kr_case g; [kr_case c; [kr_case t|]|];
    intros Hok; try discriminate Hok.
  intros Hnull Hslot Hfresh.
  split; [reflexivity|].
  apply Z.eqb_neq in Hnull. rewrite Hnull.
  assert (Hfilter : filter (fun x => negb (x =? n))
                      (n :: host_amfid_port_slot s :: ipc_space s)
                    = host_amfid_port_slot s :: ipc_space s).
  { simpl. rewrite Z.eqb_refl. simpl.
    assert (Hs : (host_amfid_port_slot s =? n) = false)
      by (apply Z.eqb_neq; congruence).
    rewrite Hs. simpl. rewrite filter_none; [reflexivity | exact Hfresh]. }
  destruct (kr =? KERN_SUCCESS); simpl; exact Hfilter.
Qed.

Lemma swap_and_restore_leave_one_right_witness :
  let s1 := snd (result (replace_amfid_port all_replaced example_state)) in
  ipc_space s1 = [0x3b03; 0x1403; 0x0c03; 0x0103] /\
  ipc_space (result (restore_amfid_port KERN_NO_ACCESS s1))
  = [0x1403; 0x0c03; 0x0103].
Proof.
  assert (Hnull : snd (r_construct all_replaced) <> MACH_PORT_NULL)
    by discriminate.
  assert (Hslot : snd (r_construct all_replaced)
                  <> host_amfid_port_slot example_state) by discriminate.
  assert (Hfresh : ~ In (snd (r_construct all_replaced))
                        (ipc_space example_state)).
  { simpl. intros [H|[H|[]]]; discriminate H. }
  exact (swap_and_restore_leave_one_right all_replaced example_state
           KERN_NO_ACCESS eq_refl Hnull Hslot Hfresh).
Defined.
